(** * Retail analytics dashboard ([dashboard.py]): shallow embedding

    The script is one linear pipeline, re-executed on every interaction:
    read the uploaded table, normalise columns, filter, aggregate, derive
    insights, draw charts, offer downloads.  The embedding follows the
    script section by section.

    Conventions of the embedding.
    - A table ([DataFrame]) is a list of column labels with their dtype and
      a list of rows; a row maps a column label to a cell.  Cells of a
      label that is not a column of the table are never read.
    - Numbers are exact rationals ([Qc], canonical, so that equal numbers
      are equal terms).  Rounding of binary floating point, infinities and
      boolean columns are outside the embedding.
    - The calls into the table library (pandas) are embedded by what they
      return on such tables; each one is named after the call.
    - Everything the script shows is recorded, in order, as a list of
      [ui] events; an exception is a result [Err]. *)

From Stdlib Require Import ZArith QArith Qabs Qcanon List String Ascii Bool Lia.
From Stdlib Require Import Permutation Sorted OrdersEx.
Import ListNotations.

Local Open Scope list_scope.

Infix "+++" := String.append (at level 60, right associativity).

(** ** Values *)

Record date := mkDate { year : Z; month : Z; day : Z }.

(** A timestamp: a calendar date and the nanoseconds since midnight. *)
Record Timestamp := mkTs { ts_date : date; ts_ns : Z }.

Inductive cell :=
| NaN
| Num (x : Qc)
| Str (s : string)
| Dt (t : Timestamp).

Inductive dtype := DNumber | DDatetime | DObject.

(** The exceptions of the script: comparing a date with a tuple, taking
    the date of something that is not a timestamp, dividing by zero, and
    a failure to read the upload. *)
Inductive exn := TypeError | AttributeError | ZeroDivisionError | ReadError.

Inductive result (A : Type) :=
| Ok (a : A)
| Err (e : exn).
Arguments Ok {A} a.
Arguments Err {A} e.

(** *** Equality and order on values *)

Definition Qc_eqb (x y : Qc) : bool := Qeq_bool x y.

Definition date_compare (a b : date) : comparison :=
  match (year a ?= year b)%Z with
  | Eq => match (month a ?= month b)%Z with
          | Eq => (day a ?= day b)%Z
          | c => c
          end
  | c => c
  end.

Definition date_leb (a b : date) : bool :=
  match date_compare a b with Gt => false | _ => true end.

Definition date_eqb (a b : date) : bool :=
  match date_compare a b with Eq => true | _ => false end.

Definition ts_compare (a b : Timestamp) : comparison :=
  match date_compare (ts_date a) (ts_date b) with
  | Eq => (ts_ns a ?= ts_ns b)%Z
  | c => c
  end.

Definition ts_leb (a b : Timestamp) : bool :=
  match ts_compare a b with Gt => false | _ => true end.

Definition ts_eqb (a b : Timestamp) : bool :=
  match ts_compare a b with Eq => true | _ => false end.

Definition cell_eqb (a b : cell) : bool :=
  match a, b with
  | NaN, NaN => true
  | Num x, Num y => Qc_eqb x y
  | Str s, Str t => String.eqb s t
  | Dt s, Dt t => ts_eqb s t
  | _, _ => false
  end.

(** Order of group keys.  Within one kind it is the order of the values
    (numbers by value, strings by code point, timestamps by time); a
    column holds one kind of value, the order between kinds only makes
    the comparison total. *)
Definition kind_rank (c : cell) : Z :=
  match c with NaN => 0 | Num _ => 1 | Dt _ => 2 | Str _ => 3 end.

Definition cell_compare (a b : cell) : comparison :=
  match a, b with
  | Num x, Num y => Qccompare x y
  | Str s, Str t => String_as_OT.compare s t
  | Dt s, Dt t => ts_compare s t
  | _, _ => (kind_rank a ?= kind_rank b)%Z
  end.

Definition cell_leb (a b : cell) : bool :=
  match cell_compare a b with Gt => false | _ => true end.

(** ** Series operations *)

Definition isna (c : cell) : bool :=
  match c with NaN => true | _ => false end.

Definition notna (c : cell) : bool := negb (isna c).

(** [Series.dropna()] *)
Definition dropna (s : list cell) : list cell := filter notna s.

(** [Series.unique()]: the distinct values, in order of first appearance. *)
Fixpoint unique (s : list cell) : list cell :=
  match s with
  | [] => []
  | x :: t => x :: filter (fun y => negb (cell_eqb x y)) (unique t)
  end.

(** [Series.nunique()]: nulls are not counted. *)
Definition nunique (s : list cell) : nat := List.length (unique (dropna s)).

(** The membership test of [Series.isin(values)], on one cell.  A null
    cell is matched by a null among [values]. *)
Definition isin (values : list cell) (c : cell) : bool :=
  existsb (cell_eqb c) values.

Definition as_num (c : cell) : option Qc :=
  match c with Num x => Some x | _ => None end.

(** [Series.sum()] of a numeric series: nulls are skipped, the empty sum
    is 0. *)
Definition sum (s : list cell) : Qc :=
  fold_right (fun c acc => match as_num c with
                           | Some x => (x + acc)%Qc
                           | None => acc
                           end) 0%Qc s.

(** [Series.isna().all()] and [Series.notna().any()] *)
Definition isna_all (s : list cell) : bool := forallb isna s.
Definition notna_any (s : list cell) : bool := existsb notna s.

Definition as_ts (c : cell) : option Timestamp :=
  match c with Dt t => Some t | _ => None end.

Definition timestamps (s : list cell) : list Timestamp :=
  flat_map (fun c => match as_ts c with Some t => [t] | None => [] end) s.

(** [Series.min()] and [Series.max()] of a datetime series, nulls skipped. *)
Definition ts_min (a b : Timestamp) : Timestamp := if ts_leb a b then a else b.
Definition ts_max (a b : Timestamp) : Timestamp := if ts_leb a b then b else a.

Definition series_min (s : list cell) : option Timestamp :=
  match timestamps s with
  | [] => None
  | t :: l => Some (fold_left ts_min l t)
  end.

Definition series_max (s : list cell) : option Timestamp :=
  match timestamps s with
  | [] => None
  | t :: l => Some (fold_left ts_max l t)
  end.

(** ** Tables *)

Definition row := string -> cell.

Record DataFrame := mkDF {
  columns : list (string * dtype);
  rows : list row
}.

(** [c in df.columns] *)
Definition has_column (df : DataFrame) (c : string) : bool :=
  existsb (String.eqb c) (map fst (columns df)).

(** [df[c]] *)
Definition col (df : DataFrame) (c : string) : list cell :=
  map (fun r => r c) (rows df).

(** [df[mask]], the mask given by its value on each row. *)
Definition select (df : DataFrame) (mask : row -> bool) : DataFrame :=
  mkDF (columns df) (filter mask (rows df)).

(** [len(df)] and [df.empty] *)
Definition len (df : DataFrame) : nat := List.length (rows df).
Definition empty (df : DataFrame) : bool :=
  match rows df, columns df with
  | [], _ => true
  | _, [] => true
  | _, _ => false
  end.

Definition upd (r : row) (c : string) (v : cell) : row :=
  fun c' => if String.eqb c' c then v else r c'.

Fixpoint set_dtype (c : string) (ty : dtype) (cols : list (string * dtype))
  : list (string * dtype) :=
  match cols with
  | [] => [(c, ty)]
  | (c', ty') :: rest =>
      if String.eqb c' c then (c', ty) :: rest
      else (c', ty') :: set_dtype c ty rest
  end.

(** [df[c] = values], for a series of the table's own length. *)
Definition set_item (df : DataFrame) (c : string) (ty : dtype)
  (values : list cell) : DataFrame :=
  mkDF (set_dtype c ty (columns df))
       (map (fun rv => upd (fst rv) c (snd rv)) (combine (rows df) values)).

(** [df.dropna(subset=[c])] *)
Definition dropna_subset (df : DataFrame) (c : string) : DataFrame :=
  select df (fun r => notna (r c)).

(** *** Grouping *)

Fixpoint insert_key (k : cell) (l : list cell) : list cell :=
  match l with
  | [] => [k]
  | h :: t => if cell_leb k h then k :: h :: t else h :: insert_key k t
  end.

Definition sort_keys (l : list cell) : list cell :=
  fold_right insert_key [] l.

(** [df.groupby(key, dropna=True)[val].sum()]: one entry per distinct
    non-null key, in ascending key order ([sort=True] is the default of
    [groupby]), holding the sum of [val] over the rows of that key. *)
Definition groupby_sum (df : DataFrame) (key val : string)
  : list (cell * Qc) :=
  map (fun k => (k, sum (col (select df (fun r => cell_eqb (r key) k)) val)))
      (sort_keys (unique (dropna (col df key)))).

(** [Series.idxmax()] and [Series.max()] of a non-empty series whose
    first entry is [best]: the first entry holding the maximum. *)
Fixpoint argmax (best : cell * Qc) (s : list (cell * Qc)) : cell * Qc :=
  match s with
  | [] => best
  | e :: t =>
      match Qccompare (snd e) (snd best) with
      | Gt => argmax e t
      | _ => argmax best t
      end
  end.

(** *** Monthly resampling *)

Fixpoint insert_ts (o : Timestamp * cell) (l : list (Timestamp * cell))
  : list (Timestamp * cell) :=
  match l with
  | [] => [o]
  | h :: t => if ts_leb (fst o) (fst h) then o :: h :: t
              else h :: insert_ts o t
  end.

(** [set_index(c).sort_index()[val]] on a table without nulls in [c]:
    the values of [val] indexed by the timestamps of [c], in time order. *)
Definition sort_index (l : list (Timestamp * cell)) : list (Timestamp * cell) :=
  fold_right insert_ts [] l.

Definition indexed (df : DataFrame) (c val : string) : list (Timestamp * cell) :=
  flat_map (fun r => match as_ts (r c) with
                     | Some t => [(t, r val)]
                     | None => []
                     end) (rows df).

(** Calendar months are numbered consecutively. *)
Definition month_index (d : date) : Z := (year d * 12 + (month d - 1))%Z.

Definition month_of (o : Timestamp * cell) : Z := month_index (ts_date (fst o)).

Definition in_month (m : Z) (o : Timestamp * cell) : bool :=
  (month_of o =? m)%Z.

Definition months_from (lo : Z) (n : nat) : list Z :=
  map (fun k => (lo + Z.of_nat k)%Z) (seq 0 n).

(** [.resample('M').sum()] of a time-ordered series: one bin per calendar
    month from the month of the first entry to the month of the last one,
    months without entries included (their sum is 0). *)
Definition resample_M_sum (s : list (Timestamp * cell)) : list (Z * Qc) :=
  match s with
  | [] => []
  | o :: _ =>
      let lo := month_of o in
      let hi := month_of (last s o) in
      map (fun m => (m, sum (map snd (filter (in_month m) s))))
          (months_from lo (Z.to_nat (hi - lo + 1)))
  end.

(** ** Formatting *)

Definition str (l : list ascii) : string := string_of_list_ascii l.

Definition digit_char (d : Z) : ascii := ascii_of_nat (48 + Z.to_nat d).

Fixpoint digits_fuel (fuel : nat) (n : Z) (acc : list ascii) : list ascii :=
  match fuel with
  | O => acc
  | S f =>
      let acc' := digit_char (n mod 10) :: acc in
      if (n <? 10)%Z then acc' else digits_fuel f (n / 10) acc'
  end.

(** The decimal digits of a non-negative integer. *)
Definition digits (n : Z) : list ascii :=
  digits_fuel (S (Z.to_nat (Z.log2 n))) n [].

(** The [,] option of a format specification: a comma every three
    digits, counted from the right; [l] holds the digits from the right. *)
Fixpoint group_rev (l : list ascii) (k : nat) : list ascii :=
  match l with
  | [] => []
  | d :: t =>
      match t with
      | [] => [d]
      | _ => if Nat.eqb k 2 then d :: ","%char :: group_rev t 0
             else d :: group_rev t (S k)
      end
  end.

Definition group (ds : list ascii) : list ascii := rev (group_rev (rev ds) 0).

(** [f"{n:,}"] of an integer *)
Definition format_int (n : Z) : string :=
  str ((if (n <? 0)%Z then ["-"%char] else []) ++ group (digits (Z.abs n))).

(** Rounding to the nearest integer, ties to even. *)
Definition round_half_even (q : Q) : Z :=
  let n := Qnum q in
  let d := Zpos (Qden q) in
  let fl := (n / d)%Z in
  let r := (n mod d)%Z in
  if (2 * r <? d)%Z then fl
  else if (d <? 2 * r)%Z then (fl + 1)%Z
  else if Z.even fl then fl else (fl + 1)%Z.

Definition pad2 (n : Z) : list ascii :=
  [digit_char ((n / 10) mod 10); digit_char (n mod 10)].

(** [f"{x:,.2f}"] of a number: sign, grouped integer part, two decimals. *)
Definition format_2f (x : Qc) : string :=
  let cents := round_half_even (Qabs x * 100) in
  str ((if (Qnum x <? 0)%Z then ["-"%char] else [])
       ++ group (digits (cents / 100)) ++ "."%char :: pad2 (cents mod 100)).

Definition format_money (x : Qc) : string := "$" +++ format_2f x.

Definition format_nat (n : nat) : string := str (digits (Z.of_nat n)).

(** [strftime('%Y-%m-%d %H:%M')] *)
Definition strftime (t : Timestamp) : string :=
  let d := ts_date t in
  let h := (ts_ns t / 3600000000000)%Z in
  let m := ((ts_ns t / 60000000000) mod 60)%Z in
  str (digits (year d) ++ "-"%char :: pad2 (month d) ++ "-"%char :: pad2 (day d)
       ++ " "%char :: pad2 h ++ ":"%char :: pad2 m).

(** ** CSV text *)

Definition dquote : ascii := "034"%char.
Definition LF : ascii := "010"%char.
Definition CR : ascii := "013"%char.
Definition comma : ascii := ","%char.

Definition special (c : ascii) : bool :=
  Ascii.eqb c comma || Ascii.eqb c dquote || Ascii.eqb c LF || Ascii.eqb c CR.

(** Minimal quoting: a field is quoted when it holds a delimiter, a
    quote or a line break; a quote inside is doubled. *)
Definition escape (l : list ascii) : list ascii :=
  flat_map (fun c => if Ascii.eqb c dquote then [dquote; dquote] else [c]) l.

Definition quote_field (f : string) : list ascii :=
  let l := list_ascii_of_string f in
  if existsb special l then dquote :: escape l ++ [dquote] else l.

Fixpoint csv_record (fields : list string) : list ascii :=
  match fields with
  | [] => [LF]
  | [f] => quote_field f ++ [LF]
  | f :: rest => quote_field f ++ comma :: csv_record rest
  end.

(** [DataFrame.to_csv(index=False)] of a table of strings: the header
    line, then one line per row. *)
Definition to_csv (header : list string) (body : list (list string)) : string :=
  str (flat_map csv_record (header :: body)).

(** The reader: fields are split at commas and records at line breaks
    outside quotes; inside a quoted field a doubled quote is one quote. *)
Inductive rstate := FieldStart | InField | InQuoted | QuoteSeen.

Fixpoint read_csv_from (st : rstate) (field : list ascii) (record : list string)
  (done : list (list string)) (input : list ascii) : list (list string) :=
  let close_field := str (rev field) :: record in
  match input with
  | [] =>
      match st, field, record with
      | FieldStart, [], [] => rev done
      | _, _, _ => rev (rev close_field :: done)
      end
  | c :: rest =>
      match st with
      | FieldStart | InField =>
          if Ascii.eqb c comma then read_csv_from FieldStart [] close_field done rest
          else if Ascii.eqb c LF
               then read_csv_from FieldStart [] [] (rev close_field :: done) rest
          else if Ascii.eqb c dquote
               then match st with
                    | FieldStart => read_csv_from InQuoted field record done rest
                    | _ => read_csv_from InField (c :: field) record done rest
                    end
          else read_csv_from InField (c :: field) record done rest
      | InQuoted =>
          if Ascii.eqb c dquote then read_csv_from QuoteSeen field record done rest
          else read_csv_from InQuoted (c :: field) record done rest
      | QuoteSeen =>
          if Ascii.eqb c dquote then read_csv_from InQuoted (c :: field) record done rest
          else if Ascii.eqb c comma then read_csv_from FieldStart [] close_field done rest
          else if Ascii.eqb c LF
               then read_csv_from FieldStart [] [] (rev close_field :: done) rest
          else read_csv_from InField (c :: field) record done rest
      end
  end.

(** Re-parsing a CSV text into its records of fields. *)
Definition read_csv_text (s : string) : list (list string) :=
  read_csv_from FieldStart [] [] [] (list_ascii_of_string s).

(** ** Events and exceptions *)

Inductive chart :=
| DailySalesTrend | Top10Products | SalesByCategory | SalesByRegion
| CorrelationHeatmap.

(** What the script shows, one constructor per call into the page
    library.  Figures are recorded by their kind only. *)
Inductive ui :=
| StSetPageConfig (page_title layout : string)
| StTitle (s : string)
| StMarkdown (s : string)
| StFileUploader (label : string)
| StSuccess (s : string)
| StWarning (s : string)
| StInfo (s : string)
| StError (s : string)
| StCode (s : string)
| StWrite (s : string)
| StDataframe (df : DataFrame)
| StSidebarHeader (s : string)
| StSubheader (s : string)
| StDateInput (label : string) (value : date * date) (min_value max_value : date)
| StMultiselect (label : string) (options default : list cell)
| StMetric (label value : string)
| StExpander (label : string)
| StPlotlyChart (fig : chart)
| StPyplot (fig : chart)
| StDownloadButton (label data file_name mime : string)
| StButton (label : string)
| StCheckbox (label : string).

(** A computation that shows events and either returns or raises. *)
Definition M (A : Type) : Type := (list ui * result A)%type.

Definition ret {A} (a : A) : M A := ([], Ok a).

Definition bind {A B} (m : M A) (k : A -> M B) : M B :=
  match m with
  | (w, Ok a) => let (w', r) := k a in (w ++ w', r)
  | (w, Err e) => (w, Err e)
  end.

Definition emit (e : ui) : M unit := ([e], Ok tt).

Definition lift {A} (r : result A) : M A := ([], r).

Notation "x <- m ;; k" := (bind m (fun x => k))
  (at level 61, m at next level, right associativity).
Notation "m ;; k" := (bind m (fun _ => k))
  (at level 61, right associativity).

Fixpoint emit_all (l : list ui) : M unit :=
  match l with
  | [] => ret tt
  | e :: t => emit e ;; emit_all t
  end.

(** ** Inputs of one run *)

(** The value of the date widget: a tuple of dates while a range is
    being picked, or a single date. *)
Inductive DateSel :=
| SelTuple (ds : list date)
| SelDate (d : date).

(** The widget values: the date selection and, for each multi-select,
    which of the offered options are ticked. *)
Record FilterState := mkFS {
  date_sel : DateSel;
  pick_category : cell -> bool;
  pick_region : cell -> bool
}.

(** What the host supplies besides the filters: the clock and the state
    of the report button and of the raw-data checkbox. *)
Record Env := mkEnv {
  now : Timestamp;
  generate_report : bool;
  show_raw : bool
}.

(** The parsing calls of the table library, kept abstract: they return a
    series of the length of their argument, with null where an entry
    cannot be parsed ([errors='coerce']); [str_num] and [str_ts] are the
    text of a number and of a timestamp inside an f-string, [str_exn]
    the text of an exception. *)
Class Library := {
  to_datetime : list cell -> list (option Timestamp);
  to_datetime_length : forall s, List.length (to_datetime s) = List.length s;
  to_numeric : list cell -> list (option Qc);
  to_numeric_length : forall s, List.length (to_numeric s) = List.length s;
  str_num : Qc -> string;
  str_ts : Timestamp -> string;
  str_exn : exn -> string
}.

Definition of_option {A} (f : A -> cell) (o : option A) : cell :=
  match o with Some a => f a | None => NaN end.

Definition py_str `{Library} (c : cell) : string :=
  match c with
  | NaN => "nan"
  | Num x => str_num x
  | Str s => s
  | Dt t => str_ts t
  end.

(** ** Data preparation (lines 30-45) *)

(** [df[c] = pd.to_datetime(df[c], errors='coerce')] and
    [df[c] = pd.to_numeric(df[c], errors='coerce')] *)
Definition coerce_datetime `{Library} (df : DataFrame) (c : string) : DataFrame :=
  set_item df c DDatetime (map (of_option Dt) (to_datetime (col df c))).

Definition coerce_numeric `{Library} (df : DataFrame) (c : string) : DataFrame :=
  set_item df c DNumber (map (of_option Num) (to_numeric (col df c))).

Definition prep_OrderDate `{Library} (df : DataFrame) : M DataFrame :=
  if has_column df "OrderDate" then
    let df := coerce_datetime df "OrderDate" in
    (if isna_all (col df "OrderDate")
     then emit (StWarning "⚠️ 'OrderDate' column exists but could not parse any dates.")
     else emit (StInfo "📅 'OrderDate' parsed successfully.")) ;;
    ret df
  else
    emit (StWarning "⚠️ 'OrderDate' column not found — time-series charts disabled.") ;;
    ret df.

Definition numeric_cols : list string :=
  ["Sales"; "Quantity"; "Profit"; "UnitPrice"]%string.

Definition prep_numeric `{Library} (df : DataFrame) : DataFrame :=
  fold_left (fun df c => if has_column df c then coerce_numeric df c else df)
            numeric_cols df.

Definition data_prep `{Library} (df : DataFrame) : M DataFrame :=
  df <- prep_OrderDate df ;;
  ret (prep_numeric df).

(** ** Filters (lines 47-87) *)

(** A Python value compared with the dates of the column. *)
Inductive pyval :=
| PyDate (d : date)
| PyTuple (ds : list date).

(** Lines 61-65: a tuple of two dates is unpacked; anything else is used
    as it is for both bounds. *)
Definition bounds (sel : DateSel) : pyval * pyval :=
  match sel with
  | SelTuple [a; b] => (PyDate a, PyDate b)
  | SelTuple ds => (PyTuple ds, PyTuple ds)
  | SelDate d => (PyDate d, PyDate d)
  end.

(** [df['OrderDate'].dt.date <op> v]: the comparison on each cell; a null
    date compares false; comparing dates with a tuple raises. *)
Definition compare_dates (op : date -> date -> bool) (v : pyval)
  : result (cell -> bool) :=
  match v with
  | PyDate d => Ok (fun c => match as_ts c with
                             | Some t => op (ts_date t) d
                             | None => false
                             end)
  | PyTuple _ => Err TypeError
  end.

Definition date_filter (df : DataFrame) (fs : FilterState) : M DataFrame :=
  let df_filtered := df in
  if has_column df "OrderDate" && notna_any (col df "OrderDate") then
    match series_min (col df "OrderDate"), series_max (col df "OrderDate") with
    | Some mn, Some mx =>
        let min_date := ts_date mn in
        let max_date := ts_date mx in
        emit (StDateInput "📅 Date Range" (min_date, max_date) min_date max_date) ;;
        let (start_date, end_date) := bounds (date_sel fs) in
        ge <- lift (compare_dates (fun d s => date_leb s d) start_date) ;;
        le <- lift (compare_dates date_leb end_date) ;;
        ret (select df_filtered (fun r => ge (r "OrderDate"%string) && le (r "OrderDate"%string)))
    | _, _ => lift (Err AttributeError)
    end
  else ret df_filtered.

Definition cat_options (df_filtered : DataFrame) : list cell :=
  unique (dropna (col df_filtered "Category")).

Definition reg_options (df_filtered : DataFrame) : list cell :=
  unique (dropna (col df_filtered "Region")).

(** [st.sidebar.multiselect]: shows the options and returns the ticked
    ones, in the order of the options. *)
Definition multiselect (label : string) (options default : list cell)
  (pick : cell -> bool) : M (list cell) :=
  emit (StMultiselect label options default) ;;
  ret (filter pick options).

Definition category_filter (df_filtered : DataFrame) (fs : FilterState)
  : M DataFrame :=
  if has_column df_filtered "Category" then
    categories <- multiselect "🛍️ Category" (cat_options df_filtered)
                    (cat_options df_filtered) (pick_category fs) ;;
    ret (select df_filtered (fun r => isin categories (r "Category"%string)))
  else ret df_filtered.

Definition region_filter (df_filtered : DataFrame) (fs : FilterState)
  : M DataFrame :=
  if has_column df_filtered "Region" then
    regions <- multiselect "📍 Region" (reg_options df_filtered)
                 (reg_options df_filtered) (pick_region fs) ;;
    ret (select df_filtered (fun r => isin regions (r "Region"%string)))
  else ret df_filtered.

(** The value of [df_filtered] after the three filters. *)
Definition filters (df : DataFrame) (fs : FilterState) : M DataFrame :=
  emit (StSidebarHeader "FilterWhere") ;;
  df_filtered <- date_filter df fs ;;
  df_filtered <- category_filter df_filtered fs ;;
  region_filter df_filtered fs.

(** ** KPIs (lines 89-100) *)

Definition total_sales (df_filtered : DataFrame) : Qc :=
  if has_column df_filtered "Sales" then sum (col df_filtered "Sales") else 0%Qc.

Definition total_orders (df_filtered : DataFrame) : nat :=
  if has_column df_filtered "OrderID" then nunique (col df_filtered "OrderID")
  else len df_filtered.

Definition Qc_of_nat (n : nat) : Qc := Q2Qc (inject_Z (Z.of_nat n)).

(** [a / n]; a zero divisor is a failure of the run. *)
Definition truediv (a : Qc) (n : nat) : result Qc :=
  if Nat.eqb n 0 then Err ZeroDivisionError else Ok (a / Qc_of_nat n)%Qc.

Definition avg_order_value (df_filtered : DataFrame) : result Qc :=
  if Nat.ltb 0 (total_orders df_filtered)
  then truediv (total_sales df_filtered) (total_orders df_filtered)
  else Ok 0%Qc.

Definition total_profit (df_filtered : DataFrame) : Qc :=
  if has_column df_filtered "Profit" then sum (col df_filtered "Profit") else 0%Qc.

Record KPISummary := mkKPI {
  kpi_total_sales : Qc;
  kpi_total_orders : nat;
  kpi_avg_order_value : Qc;
  kpi_total_profit : Qc
}.

(** The four values as they are displayed. *)
Definition displayed (k : KPISummary) : list string :=
  [format_money (kpi_total_sales k);
   format_int (Z.of_nat (kpi_total_orders k));
   format_money (kpi_avg_order_value k);
   format_money (kpi_total_profit k)].

Definition metrics (k : KPISummary) : list ui :=
  [StMetric "Total Sales" (format_money (kpi_total_sales k));
   StMetric "Total Orders" (format_int (Z.of_nat (kpi_total_orders k)));
   StMetric "Avg Order Value" (format_money (kpi_avg_order_value k));
   StMetric "Total Profit" (format_money (kpi_total_profit k))].

Definition kpis (df_filtered : DataFrame) : M KPISummary :=
  emit (StSubheader "📈 Key Performance Indicators") ;;
  avg_order_value <- lift (avg_order_value df_filtered) ;;
  let k := mkKPI (total_sales df_filtered) (total_orders df_filtered)
                 avg_order_value (total_profit df_filtered) in
  emit_all (metrics k) ;;
  ret k.

(** ** Insights (lines 102-133) *)

Definition region_sales (df_filtered : DataFrame) : list (cell * Qc) :=
  groupby_sum df_filtered "Region" "Sales".

Definition cat_sales_s (df_filtered : DataFrame) : list (cell * Qc) :=
  groupby_sum df_filtered "Category" "Sales".

(** [s.idxmax()] and [s.max()] of a series that is not empty. *)
Definition idxmax (s : list (cell * Qc)) : option cell :=
  match s with
  | [] => None
  | e :: t => Some (fst (argmax e t))
  end.

Definition series_max_value (s : list (cell * Qc)) : option Qc :=
  match s with
  | [] => None
  | e :: t => Some (snd (argmax e t))
  end.

(** The value of [top_region], when the script assigns it. *)
Definition top_region (df_filtered : DataFrame) : option cell :=
  if has_column df_filtered "Region" && has_column df_filtered "Sales"
  then idxmax (region_sales df_filtered)
  else None.

Definition top_cat (df_filtered : DataFrame) : option cell :=
  if has_column df_filtered "Category" && has_column df_filtered "Sales"
  then idxmax (cat_sales_s df_filtered)
  else None.

Definition sales_over_time (df_filtered : DataFrame) : list (Z * Qc) :=
  let df_time_tmp := dropna_subset df_filtered "OrderDate" in
  resample_M_sum (sort_index (indexed df_time_tmp "OrderDate" "Sales")).

(** [s.iloc[-k]] for [1 <= k <= len(s)] *)
Definition iloc_neg (s : list (Z * Qc)) (k : nat) : Qc :=
  nth (List.length s - k) (map snd s) 0%Qc.

Definition Qc_ltb (x y : Qc) : bool :=
  match Qccompare x y with Lt => true | _ => false end.

Definition increasing_msg : string := "📈 Sales are increasing recently".
Definition declining_msg : string := "📉 Sales are declining recently".

Definition region_insight `{Library} (df_filtered : DataFrame) : list string :=
  match top_region df_filtered, series_max_value (region_sales df_filtered) with
  | Some top_region, Some mx =>
      ["🏆 Top region: **" +++ py_str top_region +++ "** with "
         +++ format_money mx +++ " sales"]
  | _, _ => []
  end.

Definition category_insight `{Library} (df_filtered : DataFrame) : list string :=
  match top_cat df_filtered with
  | Some top_cat => ["🔥 Top category: **" +++ py_str top_cat +++ "**"]
  | None => []
  end.

Definition trend_insight (df_filtered : DataFrame) : list string :=
  if has_column df_filtered "OrderDate" && has_column df_filtered "Sales" then
    let df_time_tmp := dropna_subset df_filtered "OrderDate" in
    if negb (empty df_time_tmp) then
      let s := sales_over_time df_filtered in
      if Nat.ltb 1 (List.length s) then
        if Qc_ltb (iloc_neg s 2) (iloc_neg s 1)
        then [increasing_msg]
        else [declining_msg]
      else []
    else []
  else [].

Definition insights `{Library} (df_filtered : DataFrame) : list string :=
  region_insight df_filtered ++ category_insight df_filtered
  ++ trend_insight df_filtered.

(** [enumerate(l, start)] with the line built from each pair. *)
Fixpoint numbered (start : nat) (l : list string) : list string :=
  match l with
  | [] => []
  | x :: t => (format_nat start +++ ". " +++ x) :: numbered (S start) t
  end.

Definition show_insights `{Library} (df_filtered : DataFrame) : M (list string) :=
  emit (StSubheader "💡 Smart Insights") ;;
  let insights := insights df_filtered in
  emit_all (map StMarkdown (numbered 1 insights)) ;;
  ret insights.

(** ** Charts (lines 135-214) *)

Definition numeric_columns (df : DataFrame) : list string :=
  map fst (filter (fun c => match snd c with DNumber => true | _ => false end)
                  (columns df)).

(** A chart of a grouped sum, or the warning shown when there is no
    group.  Ordering the groups and keeping the first ten leaves a series
    with groups non-empty. *)
Definition grouped_chart (df_filtered : DataFrame) (key title : string)
  (fig : chart) (nodata : string) : M unit :=
  if has_column df_filtered key && has_column df_filtered "Sales" then
    emit (StExpander title) ;;
    match groupby_sum df_filtered key "Sales" with
    | _ :: _ => emit (StPlotlyChart fig)
    | [] => emit (StWarning nodata)
    end
  else ret tt.

(** 1. Sales over time *)
Definition sales_over_time_chart (df_filtered : DataFrame) : M unit :=
  if has_column df_filtered "OrderDate" && has_column df_filtered "Sales" then
    emit (StExpander "📅 Sales Over Time") ;;
    let df_time := dropna_subset df_filtered "OrderDate" in
    if negb (empty df_time) then emit (StPlotlyChart DailySalesTrend)
    else emit (StWarning "No valid data to plot sales over time.")
  else ret tt.

(** 5. Correlation heatmap *)
Definition correlation_heatmap (df_filtered : DataFrame) : M unit :=
  let numeric_df := numeric_columns df_filtered in
  if Nat.ltb 1 (List.length numeric_df) then
    emit (StExpander "🔗 Correlation Heatmap") ;;
    (* corr is square, one row and one column per numeric column *)
    if negb (Nat.eqb (List.length numeric_df) 0) then emit (StPyplot CorrelationHeatmap)
    else emit (StWarning "Not enough numeric data for correlation.")
  else ret tt.

Definition graphs (df_filtered : DataFrame) : M unit :=
  emit (StSubheader "📊 Data Visualizations") ;;
  sales_over_time_chart df_filtered ;;
  grouped_chart df_filtered "Product" "🏆 Top 10 Products by Sales"
    Top10Products "No product sales data to display." ;;
  grouped_chart df_filtered "Category" "🥧 Sales by Category"
    SalesByCategory "No category sales data." ;;
  grouped_chart df_filtered "Region" "📍 Sales by Region"
    SalesByRegion "No region sales data." ;;
  correlation_heatmap df_filtered.

(** ** Downloads (lines 216-252) *)

Definition summary_header : list string := ["Metric"; "Value"]%string.

Definition summary_df (k : KPISummary) : list (list string) :=
  map (fun mv => [fst mv; snd mv])
      (combine ["Total Sales"; "Total Orders"; "Avg Order Value"; "Total Profit"]%string
               (displayed k)).

Definition csv (k : KPISummary) : string := to_csv summary_header (summary_df k).

Definition nl : string := String LF EmptyString.

Fixpoint join (sep : string) (l : list string) : string :=
  match l with
  | [] => EmptyString
  | [x] => x
  | x :: t => x +++ sep +++ join sep t
  end.

Definition report_lines (t : Timestamp) (k : KPISummary) (insights : list string)
  : list string :=
  ["==================================";
   "    RETAIL ANALYTICS REPORT";
   "==================================";
   "Generated on: " +++ strftime t;
   EmptyString;
   "----- KEY METRICS -----";
   "Total Sales      : " +++ format_money (kpi_total_sales k);
   "Total Orders     : " +++ format_int (Z.of_nat (kpi_total_orders k));
   "Avg Order Value  : " +++ format_money (kpi_avg_order_value k);
   "Total Profit     : " +++ format_money (kpi_total_profit k);
   EmptyString;
   "----- INSIGHTS -----"]%string
  ++ numbered 1 insights
  ++ [nl +++ "----- END OF REPORT -----"].

Definition txt_data (t : Timestamp) (k : KPISummary) (insights : list string)
  : string :=
  join nl (report_lines t k insights).

Definition downloads (env : Env) (k : KPISummary) (insights : list string)
  : M unit :=
  emit (StSubheader "💾 Download Report") ;;
  emit (StDownloadButton "📥 Download CSV Summary" (csv k) "summary.csv" "text/csv") ;;
  emit (StButton "📄 Generate Text Report (.txt)") ;;
  if generate_report env then
    emit (StDownloadButton "⬇️ Download TXT Report" (txt_data (now env) k insights)
            "Retail_Report.txt" "text/plain")
  else ret tt.

(** ** The run *)

(** The derived entities of one run. *)
Record Derived := mkDerived {
  filtered : DataFrame;
  summary : KPISummary;
  insight_list : list string
}.

(** Lines 24-28: the table is loaded; its shape and first rows. *)
Definition loaded (df : DataFrame) : list ui :=
  [StSuccess "✅ Dataset loaded successfully!";
   StWrite ("**Dataset Shape:** " +++ format_nat (len df) +++ " rows × "
            +++ format_nat (List.length (columns df)) +++ " columns");
   StDataframe (mkDF (columns df) (firstn 5 (rows df)))].

(** Lines 22-256: the body of the [try]. *)
Definition body `{Library} (df : DataFrame) (fs : FilterState) (env : Env)
  : M Derived :=
  emit_all (loaded df) ;;
  df <- data_prep df ;;
  df_filtered <- filters df fs ;;
  k <- kpis df_filtered ;;
  insights <- show_insights df_filtered ;;
  graphs df_filtered ;;
  downloads env k insights ;;
  emit (StCheckbox "Show Raw Data") ;;
  (if show_raw env then emit (StDataframe df_filtered) else ret tt) ;;
  ret (mkDerived df_filtered k insights).

(** The whole script.  [uploaded_file] is [None] when nothing is
    uploaded, and otherwise holds what reading the upload as CSV gives. *)
Definition app `{Library} (uploaded_file : option (result DataFrame))
  (fs : FilterState) (env : Env) : list ui :=
  [StSetPageConfig "Retail Analytics Dashboard" "wide";
   StTitle "🛍️ Retail Analytics Dashboard";
   StMarkdown "Upload your retail dataset (CSV) to explore sales, customers, and trends.";
   StFileUploader "📤 Upload your retail dataset (CSV)"]
  ++ match uploaded_file with
     | Some read =>
         match (df <- lift read ;; body df fs env) with
         | (shown, Ok _) => shown
         | (shown, Err e) =>
             shown ++ [StError ("❌ Error: " +++ str_exn e); StCode (str_exn e)]
         end
     | None => [StInfo "👈 Please upload a CSV file to begin."]
     end
  ++ [StMarkdown "---";
      StMarkdown "📊 Retail Analytics Dashboard | Built with ❤️ Streamlit"].

(** ** Notions used in the statements *)

(** The table after data preparation. *)
Definition normalize `{Library} (df : DataFrame) : DataFrame :=
  prep_numeric (if has_column df "OrderDate" then coerce_datetime df "OrderDate"
                else df).

(** The date filter applies when the table has an [OrderDate] column
    with at least one date. *)
Definition date_active (df : DataFrame) : bool :=
  has_column df "OrderDate" && notna_any (col df "OrderDate").

(** The selected date range: a pair of dates, or one date standing for
    the range of that single day. *)
Definition date_range (sel : DateSel) : option (date * date) :=
  match sel with
  | SelTuple [a; b] => Some (a, b)
  | SelDate d => Some (d, d)
  | SelTuple _ => None
  end.

Definition in_range (sel : DateSel) (c : cell) : bool :=
  match date_range sel, c with
  | Some (s, e), Dt t => date_leb s (ts_date t) && date_leb (ts_date t) e
  | _, _ => false
  end.

(** A row satisfies the active filters of a table: its date lies in the
    selected range (bounds included), its category is one of the ticked
    ones and so is its region; a filter on a column the table lacks is
    not active. *)
Definition passes_date (df : DataFrame) (fs : FilterState) (r : row) : bool :=
  if date_active df then in_range (date_sel fs) (r "OrderDate"%string) else true.

Definition passes_category (df : DataFrame) (fs : FilterState) (r : row) : bool :=
  if has_column df "Category"
  then notna (r "Category"%string) && pick_category fs (r "Category"%string)
  else true.

Definition passes_region (df : DataFrame) (fs : FilterState) (r : row) : bool :=
  if has_column df "Region"
  then notna (r "Region"%string) && pick_region fs (r "Region"%string)
  else true.

Definition passes (df : DataFrame) (fs : FilterState) (r : row) : bool :=
  passes_date df fs r && passes_category df fs r && passes_region df fs r.

(** The date selection can be compared with the dates of the table. *)
Definition comparable (df : DataFrame) (fs : FilterState) : bool :=
  negb (date_active df)
  || match date_range (date_sel fs) with Some _ => true | None => false end.

(** The number of distinct orders: the distinct [OrderID] values of the
    table; a table without that column has none. *)
Definition distinct_order_count (df_filtered : DataFrame) : nat :=
  if has_column df_filtered "OrderID" then nunique (col df_filtered "OrderID")
  else 0.

(** Total sales divided by the distinct order count, 0 when that count
    is 0. *)
Definition sales_per_distinct_order (df_filtered : DataFrame) : Qc :=
  if Nat.eqb (distinct_order_count df_filtered) 0 then 0%Qc
  else (total_sales df_filtered / Qc_of_nat (distinct_order_count df_filtered))%Qc.

(** The summed sales of the rows of one group. *)
Definition group_total (df : DataFrame) (key : string) (k : cell) : Qc :=
  sum (col (select df (fun r => cell_eqb (r key) k)) "Sales").

(** [k] is the key of a group of the table. *)
Definition group_key (df : DataFrame) (key : string) (k : cell) : Prop :=
  k <> NaN /\ exists r, In r (rows df) /\ r key = k.

(** Among the regions of maximal summed sales, the one met first when
    going through the rows. *)
Definition first_encountered_top (df : DataFrame) : option cell :=
  let keys := unique (dropna (col df "Region")) in
  find (fun k => forallb (fun k' => negb (Qc_ltb (group_total df "Region" k)
                                                 (group_total df "Region" k')))
                         keys) keys.


(** The option lists offered by the multi-selects of a given label. *)
Definition offered (label : string) (shown : list ui) : list (list cell) :=
  flat_map (fun e => match e with
                     | StMultiselect l options _ =>
                         if String.eqb l label then [options] else []
                     | _ => []
                     end) shown.

Definition is_date_input (e : ui) : bool :=
  match e with StDateInput _ _ _ _ => true | _ => false end.

Definition is_time_series (e : ui) : bool :=
  match e with
  | StPlotlyChart DailySalesTrend => true
  | StExpander l => String.eqb l "📅 Sales Over Time"
  | _ => false
  end.

Definition is_error (e : ui) : bool :=
  match e with StError _ | StCode _ => true | _ => false end.

Definition is_status (e : ui) : bool :=
  match e with StWarning _ | StInfo _ | StSuccess _ => true | _ => false end.

(** The average, as a number. *)
Definition avg_value (df_filtered : DataFrame) : Qc :=
  match avg_order_value df_filtered with Ok v => v | Err _ => 0%Qc end.

Definition kpi_of (df_filtered : DataFrame) : KPISummary :=
  mkKPI (total_sales df_filtered) (total_orders df_filtered)
        (avg_value df_filtered) (total_profit df_filtered).

(** A table agrees with another one outside some columns: same column
    labels, same number of rows, same cells in every other column. *)
Definition agree_outside (cs : list string) (df df' : DataFrame) : Prop :=
  map fst (columns df') = map fst (columns df)
  /\ len df' = len df
  /\ forall c, ~ In c cs -> col df' c = col df c.

(** One turn of the loop over [numeric_cols]. *)
Definition numeric_step `{Library} (df : DataFrame) (c : string) : DataFrame :=
  if has_column df c then coerce_numeric df c else df.

(** The status shown by data preparation. *)
Definition prep_status `{Library} (raw : DataFrame) : ui :=
  if has_column raw "OrderDate" then
    if forallb (fun o => match o with None => true | Some _ => false end)
               (to_datetime (col raw "OrderDate"))
    then StWarning "⚠️ 'OrderDate' column exists but could not parse any dates."
    else StInfo "📅 'OrderDate' parsed successfully."
  else StWarning "⚠️ 'OrderDate' column not found — time-series charts disabled.".

(** A series of timestamps and nulls. *)
Definition dates_only (s : list cell) : bool :=
  forallb (fun c => match c with NaN | Dt _ => true | _ => false end) s.

(** The tables after the date filter and after the category filter. *)
Definition date_filtered (df : DataFrame) (fs : FilterState) : DataFrame :=
  select df (passes_date df fs).

Definition category_filtered (df : DataFrame) (fs : FilterState) : DataFrame :=
  select (date_filtered df fs) (passes_category df fs).

(** The events of the two multi-selects. *)
Definition select_events (df : DataFrame) (fs : FilterState) : list ui :=
  (if has_column df "Category"
   then [StMultiselect "🛍️ Category" (cat_options (date_filtered df fs))
           (cat_options (date_filtered df fs))] else [])
  ++ (if has_column df "Region"
      then [StMultiselect "📍 Region" (reg_options (category_filtered df fs))
              (reg_options (category_filtered df fs))] else []).

(** An event that belongs to neither the date filter nor the
    time-series chart. *)
Definition no_time (e : ui) : bool :=
  negb (is_date_input e) && negb (is_time_series e).

(** The events of the stages that follow the filters, for the filtered
    table [d]. *)
Definition after_filters `{Library} (d : DataFrame) (env : Env) : list ui :=
  fst (kpis d) ++ fst (show_insights d) ++ fst (graphs d)
  ++ fst (downloads env (kpi_of d) (insights d))
  ++ StCheckbox "Show Raw Data" :: (if show_raw env then [StDataframe d] else []).

Definition is_multiselect (e : ui) : bool :=
  match e with StMultiselect _ _ _ => true | _ => false end.

(** The kinds of events shown after the filters. *)
Definition later_event (e : ui) : bool :=
  match e with
  | StSubheader _ | StMetric _ _ | StMarkdown _ | StExpander _
  | StPlotlyChart _ | StWarning _ | StPyplot _ | StDownloadButton _ _ _ _
  | StButton _ | StCheckbox _ | StDataframe _ => true
  | _ => false
  end.

(** The text report offered for download, if any. *)
Definition report_of (shown : list ui) : option string :=
  match find (fun e => match e with
                       | StDownloadButton _ _ f _ => String.eqb f "Retail_Report.txt"
                       | _ => false
                       end) shown with
  | Some (StDownloadButton _ data _ _) => Some data
  | _ => None
  end.

(** A comparison that is a total preorder whose [Eq] behaves as an
    equality. *)
Record cmp_ok {A : Type} (c : A -> A -> comparison) : Prop := {
  cmp_refl : forall x, c x x = Eq;
  cmp_anti : forall x y, c y x = CompOpp (c x y);
  cmp_trans : forall x y z, c x y = Lt -> c y z = Lt -> c x z = Lt;
  cmp_cong : forall x y, c x y = Eq -> forall z, c x z = c y z
}.

(** The order read off a comparison. *)
Definition le_of {A : Type} (c : A -> A -> comparison) (x y : A) : bool :=
  match c x y with Gt => false | _ => true end.

(** The order of the group keys, as a relation. *)
Definition key_le (a b : cell) : Prop := cell_leb a b = true.

(** ** Sample data *)

Fixpoint row_of (l : list (string * cell)) : row :=
  fun c => match l with
           | [] => NaN
           | (k, v) :: t => if String.eqb c k then v else row_of t c
           end.

Definition num (z : Z) : cell := Num (Q2Qc (inject_Z z)).

(** A library whose parsers accept the cells that already are dates or
    numbers. *)
Definition sample_library : Library :=
  {| to_datetime := fun s => map as_ts s;
     to_datetime_length := fun s => length_map as_ts s;
     to_numeric := fun s => map as_num s;
     to_numeric_length := fun s => length_map as_num s;
     str_num := fun x => format_2f x;
     str_ts := fun t => strftime t;
     str_exn := fun e => match e with
                         | TypeError => "TypeError"%string
                         | AttributeError => "AttributeError"%string
                         | ZeroDivisionError => "ZeroDivisionError"%string
                         | ReadError => "ReadError"%string
                         end |}.

Definition jan15 : date := mkDate 2024 1 15.
Definition mar02 : date := mkDate 2024 3 2.

Definition all_picked (sel : DateSel) : FilterState :=
  mkFS sel (fun _ => true) (fun _ => true).

Definition noon (d : date) : Timestamp := mkTs d 43200000000000.

(** Two rows, no [OrderID] column. *)
Definition sales_only : DataFrame :=
  mkDF [("Sales", DNumber)]%string
       [row_of [("Sales", num 100)]%string; row_of [("Sales", num 200)]%string].

(** West is met first, East and West tie for the maximum. *)
Definition tied_regions : DataFrame :=
  mkDF [("Region", DObject); ("Sales", DNumber)]%string
       [row_of [("Region", Str "West"); ("Sales", num 100)]%string;
        row_of [("Region", Str "East"); ("Sales", num 100)]%string;
        row_of [("Region", Str "North"); ("Sales", num 40)]%string].

Definition dated : DataFrame :=
  mkDF [("OrderDate", DObject); ("Region", DObject); ("Sales", DObject);
        ("Category", DObject); ("OrderID", DObject)]%string
       [row_of [("OrderDate", Dt (noon jan15)); ("Region", Str "West");
                ("Sales", num 100); ("Category", Str "A"); ("OrderID", Str "o1")]%string;
        row_of [("OrderDate", Dt (noon mar02)); ("Region", Str "East");
                ("Sales", num 250); ("Category", NaN); ("OrderID", Str "o2")]%string;
        row_of [("OrderDate", NaN); ("Region", Str "East");
                ("Sales", num 7); ("Category", Str "B"); ("OrderID", Str "o2")]%string;
        row_of [("OrderDate", Dt (noon mar02)); ("Region", NaN);
                ("Sales", Str "n/a"); ("Category", Str "B"); ("OrderID", Str "o3")]%string].

Definition sample_env : Env := mkEnv (noon mar02) true false.

(** A run on the sample table, every option ticked, the whole date
    range selected. *)
Definition sample_filters : FilterState := all_picked (SelTuple [jan15; mar02]).

Definition sample_run : M Derived :=
  @body sample_library dated sample_filters sample_env.

Definition sample_derived : Derived :=
  match snd sample_run with
  | Ok der => der
  | Err _ => mkDerived dated (kpi_of dated) []
  end.

(** Three rows of one order, with sales 100, 200 and 300. *)
Definition one_order : DataFrame :=
  mkDF [("OrderID", DObject); ("Sales", DNumber)]%string
       [row_of [("OrderID", Str "A1"); ("Sales", num 100)]%string;
        row_of [("OrderID", Str "A1"); ("Sales", num 200)]%string;
        row_of [("OrderID", Str "A1"); ("Sales", num 300)]%string].

(** ** Further notions *)

(** What a chart section shows: nothing when a column it needs is
    missing; otherwise its expander, holding the figure when there is
    data and the warning when there is none. *)
Definition chart_or_warning (columns_present data_present : bool)
  (title : string) (fig : ui) (nodata : string) : list ui :=
  if columns_present
  then [StExpander title; if data_present then fig else StWarning nodata]
  else [].

Definition is_plotly (e : ui) : bool :=
  match e with StPlotlyChart _ => true | _ => false end.

(** The KPIs of a table without rows. *)
Definition zero_kpis : KPISummary := mkKPI 0%Qc 0 0%Qc 0%Qc.

(** A run on the sample table with no region ticked. *)
Definition no_region : FilterState :=
  mkFS (SelTuple [jan15; mar02]) (fun _ => true) (fun _ => false).

(** What the page shows before and after the part that depends on the
    upload (lines 12-18 and 264-266). *)
Definition page_head : list ui :=
  [StSetPageConfig "Retail Analytics Dashboard" "wide";
   StTitle "🛍️ Retail Analytics Dashboard";
   StMarkdown "Upload your retail dataset (CSV) to explore sales, customers, and trends.";
   StFileUploader "📤 Upload your retail dataset (CSV)"].

Definition page_foot : list ui :=
  [StMarkdown "---";
   StMarkdown "📊 Retail Analytics Dashboard | Built with ❤️ Streamlit"].

(** A range of which only the first day is picked, and a single day. *)
Definition half_picked : FilterState := all_picked (SelTuple [jan15]).
Definition one_day : FilterState := all_picked (SelDate mar02).

Definition is_heatmap (e : ui) : bool :=
  match e with StPyplot CorrelationHeatmap => true | _ => false end.

(** A table read with text columns only, two of them named as numeric
    columns, and a run on it. *)
Definition priced : DataFrame :=
  mkDF [("Region", DObject); ("Sales", DObject); ("Profit", DObject)]%string
       [row_of [("Region", Str "West"); ("Sales", num 100); ("Profit", Str "n/a")]%string;
        row_of [("Region", Str "East"); ("Sales", num 50); ("Profit", num 5)]%string].

Definition priced_run : M Derived :=
  @body sample_library priced sample_filters sample_env.

Definition priced_derived : Derived :=
  match snd priced_run with
  | Ok der => der
  | Err _ => mkDerived priced (kpi_of priced) []
  end.







(** * Properties *)

(** ** Equality of values *)

Lemma Qc_eqb_eq (x y : Qc) : Qc_eqb x y = true <-> x = y.
Proof.
  unfold Qc_eqb. rewrite Qeq_bool_iff. split.
  - apply Qc_is_canon.
  - intros ->. reflexivity.
Qed.

Lemma date_compare_eq (a b : date) : date_compare a b = Eq -> a = b.
Proof.
  destruct a as [y m d], b as [y' m' d']. unfold date_compare. simpl.
  destruct (Z.compare_spec y y'); try discriminate.
  destruct (Z.compare_spec m m'); try discriminate.
  destruct (Z.compare_spec d d'); try discriminate.
  intros _. subst. reflexivity.
Qed.

Lemma date_compare_refl (a : date) : date_compare a a = Eq.
Proof. unfold date_compare. now rewrite !Z.compare_refl. Qed.

Lemma ts_compare_eq (a b : Timestamp) : ts_compare a b = Eq -> a = b.
Proof.
  destruct a as [d n], b as [d' n']. unfold ts_compare. simpl.
  destruct (date_compare d d') eqn:E; try discriminate.
  apply date_compare_eq in E. intros H. apply Z.compare_eq in H. now subst.
Qed.

Lemma ts_compare_refl (a : Timestamp) : ts_compare a a = Eq.
Proof. unfold ts_compare. now rewrite date_compare_refl, Z.compare_refl. Qed.

Lemma cell_eqb_eq (a b : cell) : cell_eqb a b = true <-> a = b.
Proof.
  destruct a, b; simpl; split; intros E; try discriminate; try reflexivity.
  - apply Qc_eqb_eq in E. now subst.
  - apply Qc_eqb_eq. congruence.
  - apply String.eqb_eq in E. now subst.
  - apply String.eqb_eq. congruence.
  - unfold ts_eqb in E. destruct (ts_compare t t0) eqn:C; try discriminate.
    apply ts_compare_eq in C. now subst.
  - injection E as ->. unfold ts_eqb. now rewrite ts_compare_refl.
Qed.

Lemma cell_eqb_refl (a : cell) : cell_eqb a a = true.
Proof. now apply cell_eqb_eq. Qed.

Lemma cell_eqb_neq (a b : cell) : cell_eqb a b = false <-> a <> b.
Proof.
  split.
  - intros E ->. rewrite cell_eqb_refl in E. discriminate.
  - intros N. destruct (cell_eqb a b) eqn:E; [|reflexivity].
    apply cell_eqb_eq in E. contradiction.
Qed.

Lemma notna_iff (c : cell) : notna c = true <-> c <> NaN.
Proof. unfold notna. destruct c; simpl; split; intros; congruence. Qed.

(** ** Series *)

Lemma In_dropna (s : list cell) (v : cell) : In v (dropna s) <-> In v s /\ v <> NaN.
Proof. unfold dropna. rewrite filter_In, notna_iff. tauto. Qed.

Lemma In_unique (s : list cell) (v : cell) : In v (unique s) <-> In v s.
Proof.
  induction s as [|x t IH]; simpl; [tauto|].
  rewrite filter_In, IH. split.
  - intros [E | [I _]]; auto.
  - intros [E | I]; auto.
    destruct (cell_eqb x v) eqn:C.
    + apply cell_eqb_eq in C. auto.
    + right. split; auto.
Qed.

Lemma NoDup_unique (s : list cell) : NoDup (unique s).
Proof.
  induction s as [|x t IH]; simpl; constructor.
  - rewrite filter_In. intros [_ C]. rewrite cell_eqb_refl in C. discriminate.
  - now apply NoDup_filter.
Qed.

Lemma isin_In (values : list cell) (c : cell) : isin values c = true <-> In c values.
Proof.
  unfold isin. rewrite existsb_exists. split.
  - intros [x [I E]]. apply cell_eqb_eq in E. now subst.
  - intros I. exists c. split; auto. apply cell_eqb_refl.
Qed.

(** The distinct count is the size of any duplicate-free enumeration of
    the non-null values. *)
Lemma nunique_spec (s ids : list cell) :
  NoDup ids -> (forall v, In v ids <-> In v s /\ v <> NaN) ->
  nunique s = List.length ids.
Proof.
  intros ND EQ. unfold nunique. apply Permutation_length.
  apply NoDup_Permutation; auto using NoDup_unique.
  intros v. rewrite In_unique, In_dropna, EQ. tauto.
Qed.

(** Ticking among the offered options and testing membership amounts to
    testing the cell itself, for a cell of the column. *)
Lemma isin_picked (s : list cell) (pick : cell -> bool) (c : cell) :
  In c s ->
  isin (filter pick (unique (dropna s))) c = notna c && pick c.
Proof.
  intros I. destruct (notna c && pick c) eqn:E.
  - apply andb_true_iff in E as [N P]. apply isin_In.
    rewrite filter_In, In_unique, In_dropna. rewrite notna_iff in N. auto.
  - destruct (isin _ c) eqn:S; [|reflexivity].
    apply isin_In in S. rewrite filter_In, In_unique, In_dropna in S.
    destruct S as [[_ N] P]. apply notna_iff in N. rewrite N, P in E. discriminate.
Qed.

Lemma filter_filter {A} (p q : A -> bool) (l : list A) :
  filter q (filter p l) = filter (fun x => p x && q x) l.
Proof.
  induction l as [|x t IH]; simpl; [reflexivity|].
  destruct (p x); simpl; [destruct (q x)|]; now rewrite IH.
Qed.

Lemma filter_ext_In' {A} (p q : A -> bool) (l : list A) :
  (forall x, In x l -> p x = q x) -> filter p l = filter q l.
Proof. apply filter_ext_in. Qed.

(** ** Computations *)

Lemma bind_ok {A B} (m : M A) (k : A -> M B) (w : list ui) (a : A) :
  m = (w, Ok a) -> bind m k = (w ++ fst (k a), snd (k a)).
Proof. intros ->. simpl. now destruct (k a). Qed.

Lemma bind_err {A B} (m : M A) (k : A -> M B) (w : list ui) (e : exn) :
  m = (w, Err e) -> bind m k = (w, Err e).
Proof. now intros ->. Qed.

Lemma bind_emit {B} (e : ui) (k : unit -> M B) :
  bind (emit e) k = (e :: fst (k tt), snd (k tt)).
Proof. unfold emit. simpl. now destruct (k tt). Qed.

Lemma bind_ret {A B} (a : A) (k : A -> M B) : bind (ret a) k = k a.
Proof. unfold ret. simpl. now destruct (k a). Qed.

Lemma emit_all_eq (l : list ui) : emit_all l = (l, Ok tt).
Proof.
  induction l as [|e t IH]; [reflexivity|].
  simpl. now rewrite IH.
Qed.

(** ** Tables *)

Lemma has_column_In (df : DataFrame) (c : string) :
  has_column df c = true <-> In c (map fst (columns df)).
Proof.
  unfold has_column. rewrite existsb_exists. split.
  - intros [x [I E]]. apply String.eqb_eq in E. now subst.
  - intros I. exists c. split; auto. apply String.eqb_refl.
Qed.

Lemma names_set_dtype (c : string) (ty : dtype) (cols : list (string * dtype)) :
  In c (map fst cols) -> map fst (set_dtype c ty cols) = map fst cols.
Proof.
  induction cols as [|[c' ty'] rest IH]; simpl; [tauto|].
  intros [E | I].
  - subst. now rewrite String.eqb_refl.
  - destruct (String.eqb c' c); simpl; [reflexivity|]. now rewrite IH.
Qed.

Lemma has_column_select (df : DataFrame) (mask : row -> bool) (c : string) :
  has_column (select df mask) c = has_column df c.
Proof. reflexivity. Qed.

Section SetItem.
Variables (c : string) (ty : dtype).

Lemma col_set_item_same (df : DataFrame) (values : list cell) :
  List.length values = List.length (rows df) ->
  col (set_item df c ty values) c = values.
Proof.
  unfold col, set_item. simpl. generalize (rows df). intros rs. revert rs.
  induction values as [|v vs IH]; intros [|r rs] L; simpl in *;
    try discriminate; [reflexivity|].
  unfold upd at 1. rewrite String.eqb_refl. f_equal. apply IH. lia.
Qed.

Lemma col_set_item_other (df : DataFrame) (values : list cell) (c' : string) :
  c' <> c -> List.length values = List.length (rows df) ->
  col (set_item df c ty values) c' = col df c'.
Proof.
  intros N. apply String.eqb_neq in N.
  unfold col, set_item. simpl. generalize (rows df). intros rs. revert rs.
  induction values as [|v vs IH]; intros [|r rs] L; simpl in *;
    try discriminate; [reflexivity|].
  unfold upd at 1. rewrite N. f_equal. apply IH. lia.
Qed.

Lemma len_set_item (df : DataFrame) (values : list cell) :
  List.length values = List.length (rows df) ->
  len (set_item df c ty values) = len df.
Proof.
  intros L. unfold len, set_item. simpl.
  rewrite length_map, length_combine. lia.
Qed.

Lemma names_set_item (df : DataFrame) (values : list cell) :
  has_column df c = true ->
  map fst (columns (set_item df c ty values)) = map fst (columns df).
Proof. intros H. apply has_column_In in H. now apply names_set_dtype. Qed.
End SetItem.

Lemma agree_refl (cs : list string) (df : DataFrame) : agree_outside cs df df.
Proof. repeat split. Qed.

Lemma agree_trans (cs : list string) (a b c : DataFrame) :
  agree_outside cs a b -> agree_outside cs b c -> agree_outside cs a c.
Proof.
  intros (N1 & L1 & C1) (N2 & L2 & C2). repeat split; try congruence.
  intros x I. rewrite C2, C1; auto.
Qed.

Lemma has_column_names (df df' : DataFrame) (c : string) :
  map fst (columns df') = map fst (columns df) ->
  has_column df' c = has_column df c.
Proof. unfold has_column. now intros ->. Qed.

Section Preparation.
Context `{L : Library}.

Lemma len_col (df : DataFrame) (c : string) : List.length (col df c) = len df.
Proof. unfold col, len. apply length_map. Qed.

Lemma coerce_datetime_agree (cs : list string) (df : DataFrame) (c : string) :
  In c cs -> has_column df c = true ->
  agree_outside cs df (coerce_datetime df c).
Proof.
  intros I H. unfold coerce_datetime. repeat split.
  - now apply names_set_item.
  - apply len_set_item. now rewrite length_map, to_datetime_length, len_col.
  - intros c' N. apply col_set_item_other; [congruence|].
    now rewrite length_map, to_datetime_length, len_col.
Qed.

Lemma coerce_numeric_agree (cs : list string) (df : DataFrame) (c : string) :
  In c cs -> has_column df c = true ->
  agree_outside cs df (coerce_numeric df c).
Proof.
  intros I H. unfold coerce_numeric. repeat split.
  - now apply names_set_item.
  - apply len_set_item. now rewrite length_map, to_numeric_length, len_col.
  - intros c' N. apply col_set_item_other; [congruence|].
    now rewrite length_map, to_numeric_length, len_col.
Qed.

Lemma col_coerce_datetime (df : DataFrame) (c : string) :
  col (coerce_datetime df c) c = map (of_option Dt) (to_datetime (col df c)).
Proof.
  unfold coerce_datetime. apply col_set_item_same.
  now rewrite length_map, to_datetime_length, len_col.
Qed.

Lemma col_coerce_numeric (df : DataFrame) (c : string) :
  col (coerce_numeric df c) c = map (of_option Num) (to_numeric (col df c)).
Proof.
  unfold coerce_numeric. apply col_set_item_same.
  now rewrite length_map, to_numeric_length, len_col.
Qed.

Lemma numeric_step_agree (df : DataFrame) (c : string) :
  agree_outside [c] df (numeric_step df c).
Proof.
  unfold numeric_step. destruct (has_column df c) eqn:H.
  - apply coerce_numeric_agree; simpl; auto.
  - apply agree_refl.
Qed.

Lemma agree_weaken (cs cs' : list string) (df df' : DataFrame) :
  incl cs cs' -> agree_outside cs df df' -> agree_outside cs' df df'.
Proof.
  intros I (N & Ln & C). repeat split; auto.
Qed.
End Preparation.

Section Normalizer.
Context `{L : Library}.

Lemma numeric_step_col_same (df : DataFrame) (c : string) :
  col (numeric_step df c) c =
  if has_column df c then map (of_option Num) (to_numeric (col df c))
  else col df c.
Proof.
  unfold numeric_step. destruct (has_column df c); [|reflexivity].
  apply col_coerce_numeric.
Qed.

Lemma numeric_step_col_other (df : DataFrame) (c c' : string) :
  c' <> c -> col (numeric_step df c) c' = col df c'.
Proof.
  intros N. destruct (numeric_step_agree df c) as (_ & _ & C).
  apply C. simpl. intros [E | []]. congruence.
Qed.

Lemma numeric_step_has (df : DataFrame) (c c' : string) :
  has_column (numeric_step df c) c' = has_column df c'.
Proof.
  apply has_column_names. now destruct (numeric_step_agree df c) as (N & _).
Qed.

Lemma prep_numeric_steps (df : DataFrame) :
  prep_numeric df =
  numeric_step (numeric_step (numeric_step (numeric_step df "Sales") "Quantity")
                             "Profit") "UnitPrice".
Proof. reflexivity. Qed.

Lemma prep_numeric_agree (df : DataFrame) :
  agree_outside numeric_cols df (prep_numeric df).
Proof.
  rewrite prep_numeric_steps.
  repeat (eapply agree_trans;
          [|eapply agree_weaken; [|apply numeric_step_agree];
            unfold numeric_cols; intros x [<- | []]; simpl; tauto]).
  apply agree_refl.
Qed.

Lemma prep_numeric_col (df : DataFrame) (c : string) :
  In c numeric_cols ->
  col (prep_numeric df) c =
  if has_column df c then map (of_option Num) (to_numeric (col df c))
  else col df c.
Proof.
  rewrite prep_numeric_steps.
  intros [<- | [<- | [<- | [<- | []]]]];
    repeat first
      [ rewrite numeric_step_col_other by discriminate
      | rewrite numeric_step_col_same
      | rewrite numeric_step_has ];
    reflexivity.
Qed.

Lemma normalize_agree (raw : DataFrame) :
  agree_outside ("OrderDate"%string :: numeric_cols) raw (normalize raw).
Proof.
  unfold normalize.
  apply agree_trans with
    (b := if has_column raw "OrderDate" then coerce_datetime raw "OrderDate"
          else raw).
  - destruct (has_column raw "OrderDate") eqn:H.
    + apply (coerce_datetime_agree _ raw "OrderDate"); [simpl; auto | exact H].
    + apply agree_refl.
  - eapply agree_weaken; [|apply prep_numeric_agree]. intros x I. now right.
Qed.

Lemma normalize_has (raw : DataFrame) (c : string) :
  has_column (normalize raw) c = has_column raw c.
Proof.
  apply has_column_names. now destruct (normalize_agree raw) as (N & _).
Qed.

Lemma normalize_OrderDate (raw : DataFrame) :
  col (normalize raw) "OrderDate" =
  if has_column raw "OrderDate"
  then map (of_option Dt) (to_datetime (col raw "OrderDate"))
  else col raw "OrderDate".
Proof.
  unfold normalize. destruct (prep_numeric_agree
    (if has_column raw "OrderDate" then coerce_datetime raw "OrderDate" else raw))
    as (_ & _ & C).
  rewrite C.
  - destruct (has_column raw "OrderDate"); [apply col_coerce_datetime | reflexivity].
  - unfold numeric_cols. simpl. intros [E | [E | [E | [E | []]]]]; discriminate.
Qed.

Lemma normalize_numeric (raw : DataFrame) (c : string) :
  In c numeric_cols ->
  col (normalize raw) c =
  if has_column raw c then map (of_option Num) (to_numeric (col raw c))
  else col raw c.
Proof.
  intros I. unfold normalize. rewrite prep_numeric_col by exact I.
  assert (N : c <> "OrderDate"%string).
  { unfold numeric_cols in I. simpl in I.
    destruct I as [<- | [<- | [<- | [<- | []]]]]; discriminate. }
  destruct (has_column raw "OrderDate") eqn:H; [|reflexivity].
  destruct (coerce_datetime_agree ["OrderDate"%string] raw "OrderDate")
    as (Nm & _ & C); [simpl; auto | exact H |].
  rewrite (has_column_names _ _ c Nm), C; [reflexivity|].
  simpl. intros [E | []]. congruence.
Qed.

Lemma isna_all_of_option (l : list (option Timestamp)) :
  isna_all (map (of_option Dt) l) =
  forallb (fun o => match o with None => true | Some _ => false end) l.
Proof.
  unfold isna_all. induction l as [|[t|] l IH]; simpl; auto.
Qed.

Lemma data_prep_eq (raw : DataFrame) :
  data_prep raw = ([prep_status raw], Ok (normalize raw)).
Proof.
  unfold data_prep, prep_OrderDate, normalize, prep_status.
  destruct (has_column raw "OrderDate") eqn:H.
  - rewrite col_coerce_datetime, isna_all_of_option.
    destruct (forallb _ _); reflexivity.
  - reflexivity.
Qed.
End Normalizer.

(** ** Filters *)

Lemma timestamps_nonempty (s : list cell) :
  dates_only s = true -> notna_any s = true -> timestamps s <> [].
Proof.
  induction s as [|c t IH]; simpl; [discriminate|].
  intros D N. apply andb_true_iff in D as [Dc Dt']. destruct c; try discriminate.
  simpl in N. auto.
Qed.

Lemma series_min_some (s : list cell) :
  timestamps s <> [] -> exists t, series_min s = Some t.
Proof. unfold series_min. destruct (timestamps s); [tauto | eauto]. Qed.

Lemma series_max_some (s : list cell) :
  timestamps s <> [] -> exists t, series_max s = Some t.
Proof. unfold series_max. destruct (timestamps s); [tauto | eauto]. Qed.

Lemma bounds_range (sel : DateSel) (s e : date) :
  date_range sel = Some (s, e) -> bounds sel = (PyDate s, PyDate e).
Proof.
  destruct sel as [[|a [|b [|c l]]] | d]; simpl; intros E; try discriminate;
    now injection E as <- <-.
Qed.

Lemma bounds_no_range (sel : DateSel) :
  date_range sel = None -> exists ds, bounds sel = (PyTuple ds, PyTuple ds).
Proof.
  destruct sel as [[|a [|b [|c l]]] | d]; simpl; intros E; try discriminate; eauto.
Qed.

Lemma rows_select (df : DataFrame) (mask : row -> bool) :
  rows (select df mask) = filter mask (rows df).
Proof. reflexivity. Qed.

Lemma filter_all {A} (l : list A) : filter (fun _ => true) l = l.
Proof. induction l; simpl; congruence. Qed.

Lemma date_filter_spec (df : DataFrame) (fs : FilterState) :
  (date_active df = true -> dates_only (col df "OrderDate") = true) ->
  comparable df fs = true ->
  exists w d,
    date_filter df fs = (w, Ok d)
    /\ columns d = columns df
    /\ rows d = rows (date_filtered df fs)
    /\ Forall (fun e => is_date_input e = true) w
    /\ (date_active df = false -> w = []).
Proof.
  intros D C. unfold date_filter, date_filtered, comparable, passes_date in *.
  fold (date_active df). destruct (date_active df) eqn:A.
  - specialize (D eq_refl). simpl in C.
    assert (N : timestamps (col df "OrderDate") <> []).
    { apply timestamps_nonempty; auto.
      unfold date_active in A. now apply andb_true_iff in A. }
    destruct (series_min_some _ N) as [mn ->].
    destruct (series_max_some _ N) as [mx ->].
    destruct (date_range (date_sel fs)) as [[s e]|] eqn:R; [|discriminate].
    rewrite bind_emit. rewrite (bounds_range _ _ _ R). simpl.
    eexists _, _. split; [reflexivity|]. repeat split.
    + apply filter_ext. intros r. unfold in_range. rewrite R.
      destruct (r "OrderDate"%string); reflexivity.
    + repeat constructor.
    + discriminate.
  - exists [], df. repeat split; auto. simpl. now rewrite filter_all.
Qed.

Lemma date_filter_fails (df : DataFrame) (fs : FilterState) :
  (date_active df = true -> dates_only (col df "OrderDate") = true) ->
  comparable df fs = false ->
  exists w e, date_filter df fs = (w, Err e).
Proof.
  intros D C. unfold date_filter, comparable in *.
  fold (date_active df). destruct (date_active df) eqn:A; [|discriminate].
  specialize (D eq_refl). simpl in C.
  assert (N : timestamps (col df "OrderDate") <> []).
  { apply timestamps_nonempty; auto.
    unfold date_active in A. now apply andb_true_iff in A. }
  destruct (series_min_some _ N) as [mn ->].
  destruct (series_max_some _ N) as [mx ->].
  destruct (date_range (date_sel fs)) as [[s e]|] eqn:R; [discriminate|].
  destruct (bounds_no_range _ R) as [ds ->].
  rewrite bind_emit. simpl. eauto.
Qed.

Lemma picked_rows (d : DataFrame) (c : string) (pick : cell -> bool) :
  filter (fun r => isin (filter pick (unique (dropna (col d c)))) (r c)) (rows d)
  = filter (fun r => notna (r c) && pick (r c)) (rows d).
Proof.
  apply filter_ext_in. intros r I. apply isin_picked.
  unfold col. apply (in_map (fun r0 : row => r0 c)). exact I.
Qed.

Lemma category_filter_spec (d : DataFrame) (fs : FilterState) :
  category_filter d fs =
  (if has_column d "Category"
   then [StMultiselect "🛍️ Category" (cat_options d) (cat_options d)] else [],
   Ok (mkDF (columns d) (filter (passes_category d fs) (rows d)))).
Proof.
  unfold category_filter, passes_category, multiselect.
  destruct (has_column d "Category").
  - rewrite bind_emit. simpl. unfold select, cat_options.
    now rewrite picked_rows.
  - simpl. rewrite filter_all. now destruct d.
Qed.

Lemma region_filter_spec (d : DataFrame) (fs : FilterState) :
  region_filter d fs =
  (if has_column d "Region"
   then [StMultiselect "📍 Region" (reg_options d) (reg_options d)] else [],
   Ok (mkDF (columns d) (filter (passes_region d fs) (rows d)))).
Proof.
  unfold region_filter, passes_region, multiselect.
  destruct (has_column d "Region").
  - rewrite bind_emit. simpl. unfold select, reg_options.
    now rewrite picked_rows.
  - simpl. rewrite filter_all. now destruct d.
Qed.

Lemma options_rows (d d' : DataFrame) :
  rows d = rows d' ->
  cat_options d = cat_options d' /\ reg_options d = reg_options d'.
Proof. unfold cat_options, reg_options, col. now intros ->. Qed.

Lemma has_column_cols (d d' : DataFrame) (c : string) :
  columns d = columns d' -> has_column d c = has_column d' c.
Proof. unfold has_column. now intros ->. Qed.

Lemma filters_spec (df : DataFrame) (fs : FilterState) :
  (date_active df = true -> dates_only (col df "OrderDate") = true) ->
  comparable df fs = true ->
  exists wd,
    filters df fs =
      (StSidebarHeader "FilterWhere" :: wd ++ select_events df fs,
       Ok (select df (passes df fs)))
    /\ Forall (fun e => is_date_input e = true) wd
    /\ (date_active df = false -> wd = []).
Proof.
  intros D C. destruct (date_filter_spec df fs D C) as (wd & d & E & Cd & Rd & F & I).
  exists wd. split; [|auto].
  unfold filters. rewrite bind_emit. rewrite (bind_ok _ _ _ _ E).
  rewrite category_filter_spec.
  rewrite (bind_ok _ _ _ _ eq_refl). rewrite region_filter_spec. simpl.
  unfold select_events.
  assert (H1 : has_column d "Category" = has_column df "Category")
    by (apply has_column_cols; exact Cd).
  assert (H2 : has_column (mkDF (columns d) (filter (passes_category d fs) (rows d)))
                 "Region" = has_column df "Region")
    by (unfold has_column; simpl; now rewrite Cd).
  assert (P1 : passes_category d fs = passes_category df fs)
    by (unfold passes_category; now rewrite H1).
  assert (P2 : passes_region (mkDF (columns d) (filter (passes_category d fs) (rows d))) fs
               = passes_region df fs)
    by (unfold passes_region; now rewrite H2).
  rewrite H1, H2, P2, P1.
  destruct (options_rows d (date_filtered df fs) Rd) as [-> _].
  rewrite Rd, Cd.
  f_equal. f_equal. unfold select. f_equal. unfold date_filtered. simpl.
  rewrite !filter_filter. apply filter_ext. intros r. unfold passes.
  now rewrite andb_assoc.
Qed.

(** ** The stages after the filters *)

Lemma bind_snd {A B} (m : M A) (k : A -> M B) (a : A) :
  snd m = Ok a -> bind m k = (fst m ++ fst (k a), snd (k a)).
Proof. destruct m as [w r]. simpl. intros ->. now destruct (k a). Qed.

Lemma avg_order_value_ok (d : DataFrame) : avg_order_value d = Ok (avg_value d).
Proof.
  unfold avg_value, avg_order_value, truediv.
  destruct (Nat.ltb 0 (total_orders d)) eqn:P; [|reflexivity].
  apply Nat.ltb_lt in P. destruct (Nat.eqb_spec (total_orders d) 0); [lia|].
  reflexivity.
Qed.

Lemma kpis_eq (d : DataFrame) :
  kpis d = (StSubheader "📈 Key Performance Indicators" :: metrics (kpi_of d),
            Ok (kpi_of d)).
Proof.
  unfold kpis. rewrite bind_emit, avg_order_value_ok. unfold lift.
  rewrite (bind_ok _ _ _ _ eq_refl). fold (kpi_of d).
  rewrite emit_all_eq. reflexivity.
Qed.

Lemma sales_over_time_chart_ok (d : DataFrame) :
  snd (sales_over_time_chart d) = Ok tt.
Proof.
  unfold sales_over_time_chart.
  destruct (has_column d "OrderDate" && has_column d "Sales"); [|reflexivity].
  rewrite bind_emit. now destruct (negb _).
Qed.

Lemma grouped_chart_ok (d : DataFrame) (key title : string) (fig : chart)
  (nodata : string) : snd (grouped_chart d key title fig nodata) = Ok tt.
Proof.
  unfold grouped_chart.
  destruct (has_column d key && has_column d "Sales"); [|reflexivity].
  rewrite bind_emit. now destruct (groupby_sum d key "Sales").
Qed.

Lemma correlation_heatmap_ok (d : DataFrame) : snd (correlation_heatmap d) = Ok tt.
Proof.
  unfold correlation_heatmap.
  destruct (Nat.ltb 1 _); [|reflexivity].
  rewrite bind_emit. now destruct (negb _).
Qed.

Lemma graphs_eq (d : DataFrame) :
  graphs d =
  (StSubheader "📊 Data Visualizations"
     :: fst (sales_over_time_chart d)
     ++ fst (grouped_chart d "Product" "🏆 Top 10 Products by Sales"
               Top10Products "No product sales data to display.")
     ++ fst (grouped_chart d "Category" "🥧 Sales by Category"
               SalesByCategory "No category sales data.")
     ++ fst (grouped_chart d "Region" "📍 Sales by Region"
               SalesByRegion "No region sales data.")
     ++ fst (correlation_heatmap d),
   Ok tt).
Proof.
  unfold graphs. rewrite bind_emit.
  rewrite (bind_snd _ _ tt (sales_over_time_chart_ok d)).
  rewrite !(bind_snd _ _ tt (grouped_chart_ok d _ _ _ _)).
  simpl. f_equal. apply correlation_heatmap_ok.
Qed.

Lemma graphs_ok (d : DataFrame) : snd (graphs d) = Ok tt.
Proof. now rewrite graphs_eq. Qed.

Lemma downloads_ok (env : Env) (k : KPISummary) (ins : list string) :
  snd (downloads env k ins) = Ok tt.
Proof.
  unfold downloads. rewrite !bind_emit. simpl. now destruct (generate_report env).
Qed.

Section Body.
Context `{L : Library}.

Lemma show_insights_eq (d : DataFrame) :
  show_insights d =
  (StSubheader "💡 Smart Insights" :: map StMarkdown (numbered 1 (insights d)),
   Ok (insights d)).
Proof.
  unfold show_insights. rewrite bind_emit, emit_all_eq.
  rewrite (bind_ok _ _ _ _ eq_refl). simpl. now rewrite app_nil_r.
Qed.

(** A run whose filters return shows every later stage and returns the
    derived entities. *)
Lemma body_run (raw : DataFrame) (fs : FilterState) (env : Env)
  (wf : list ui) (d : DataFrame) :
  filters (normalize raw) fs = (wf, Ok d) ->
  body raw fs env =
  (loaded raw ++ prep_status raw :: wf ++ after_filters d env,
   Ok (mkDerived d (kpi_of d) (insights d))).
Proof.
  intros F. unfold body, after_filters.
  rewrite emit_all_eq, (bind_ok _ _ _ _ eq_refl).
  rewrite data_prep_eq, (bind_ok _ _ _ _ eq_refl).
  rewrite (bind_ok _ _ _ _ F).
  rewrite kpis_eq, (bind_ok _ _ _ _ eq_refl).
  rewrite show_insights_eq, (bind_ok _ _ _ _ eq_refl).
  rewrite (bind_snd _ _ tt (graphs_ok d)).
  rewrite (bind_snd _ _ tt (downloads_ok env _ _)).
  rewrite bind_emit.
  assert (R : forall m : M unit, snd m = Ok tt ->
              bind m (fun _ => ret (mkDerived d (kpi_of d) (insights d)))
              = (fst m, Ok (mkDerived d (kpi_of d) (insights d)))).
  { intros [w r]. simpl. intros ->. simpl. now rewrite app_nil_r. }
  rewrite R by now destruct (show_raw env).
  simpl. repeat f_equal. now destruct (show_raw env).
Qed.
End Body.

Lemma forallb_impl {A} (P Q : A -> bool) (l : list A) :
  (forall x, P x = true -> Q x = true) ->
  forallb P l = true -> forallb Q l = true.
Proof.
  intros I. rewrite !forallb_forall. auto.
Qed.

Lemma forallb_Forall {A} (P : A -> bool) (l : list A) :
  Forall (fun x => P x = true) l -> forallb P l = true.
Proof. intros F. apply forallb_forall. now apply Forall_forall. Qed.

Lemma forallb_map_const {A B} (P : B -> bool) (f : A -> B) (l : list A) :
  (forall x, P (f x) = true) -> forallb P (map f l) = true.
Proof. intros H. induction l; simpl; [reflexivity|]. now rewrite H. Qed.

Section StageEvents.
Variable P : ui -> bool.

Lemma grouped_chart_forall (d : DataFrame) (key title : string) (fig : chart)
  (nodata : string) :
  P (StExpander title) = true -> P (StPlotlyChart fig) = true ->
  P (StWarning nodata) = true ->
  forallb P (fst (grouped_chart d key title fig nodata)) = true.
Proof.
  intros E C W. unfold grouped_chart.
  destruct (has_column d key && has_column d "Sales"); [|reflexivity].
  rewrite bind_emit. destruct (groupby_sum d key "Sales"); simpl;
    now rewrite E, ?C, ?W.
Qed.

Lemma sales_over_time_chart_forall (d : DataFrame) :
  P (StExpander "📅 Sales Over Time") = true ->
  P (StPlotlyChart DailySalesTrend) = true ->
  P (StWarning "No valid data to plot sales over time.") = true ->
  forallb P (fst (sales_over_time_chart d)) = true.
Proof.
  intros E C W. unfold sales_over_time_chart.
  destruct (has_column d "OrderDate" && has_column d "Sales"); [|reflexivity].
  rewrite bind_emit. destruct (negb _); simpl; now rewrite E, ?C, ?W.
Qed.

Lemma correlation_heatmap_forall (d : DataFrame) :
  P (StExpander "🔗 Correlation Heatmap") = true ->
  P (StPyplot CorrelationHeatmap) = true ->
  P (StWarning "Not enough numeric data for correlation.") = true ->
  forallb P (fst (correlation_heatmap d)) = true.
Proof.
  intros E C W. unfold correlation_heatmap.
  destruct (Nat.ltb 1 _); [|reflexivity].
  rewrite bind_emit. destruct (negb _); simpl; now rewrite E, ?C, ?W.
Qed.

Lemma downloads_forall (env : Env) (k : KPISummary) (ins : list string) :
  (forall e, later_event e = true -> is_time_series e = false -> P e = true) ->
  forallb P (fst (downloads env k ins)) = true.
Proof.
  intros H. unfold downloads. rewrite !bind_emit.
  destruct (generate_report env); simpl; rewrite !H; reflexivity.
Qed.
End StageEvents.

Section AfterFilters.
Context `{L : Library}.
Variable P : ui -> bool.
Hypothesis P_later :
  forall e, later_event e = true -> is_time_series e = false -> P e = true.

(** The later stages show events of the later kinds only; the events
    of the time-series chart come from that chart alone. *)
Lemma after_filters_forall (d : DataFrame) (env : Env) :
  forallb P (fst (sales_over_time_chart d)) = true ->
  forallb P (after_filters d env) = true.
Proof.
  intros T. unfold after_filters.
  rewrite kpis_eq, show_insights_eq, graphs_eq. simpl fst.
  rewrite !forallb_app. simpl forallb. rewrite !forallb_app.
  rewrite T, forallb_map_const by (intros; now apply P_later).
  rewrite !grouped_chart_forall, correlation_heatmap_forall, downloads_forall
    by (try assumption; now apply P_later).
  rewrite !P_later by reflexivity.
  destruct (show_raw env); simpl; rewrite ?P_later; reflexivity.
Qed.
End AfterFilters.

Lemma sales_over_time_chart_absent (d : DataFrame) :
  has_column d "OrderDate" = false -> sales_over_time_chart d = ([], Ok tt).
Proof. unfold sales_over_time_chart. now intros ->. Qed.

Section Runs.
Context `{L : Library}.

Lemma normalize_dates (raw : DataFrame) :
  date_active (normalize raw) = true ->
  dates_only (col (normalize raw) "OrderDate") = true.
Proof.
  unfold date_active. rewrite normalize_has, normalize_OrderDate.
  destruct (has_column raw "OrderDate"); [|discriminate]. intros _.
  unfold dates_only. apply forallb_map_const. now intros [t|].
Qed.

Lemma body_fail (raw : DataFrame) (fs : FilterState) (env : Env)
  (wf : list ui) (e : exn) :
  filters (normalize raw) fs = (wf, Err e) ->
  body raw fs env = (loaded raw ++ prep_status raw :: wf, Err e).
Proof.
  intros F. unfold body.
  rewrite emit_all_eq, (bind_ok _ _ _ _ eq_refl).
  rewrite data_prep_eq, (bind_ok _ _ _ _ eq_refl).
  now rewrite (bind_err _ _ _ _ F).
Qed.

Lemma filters_fail (df : DataFrame) (fs : FilterState) :
  (date_active df = true -> dates_only (col df "OrderDate") = true) ->
  comparable df fs = false ->
  exists w e, filters df fs = (w, Err e).
Proof.
  intros D C. destruct (date_filter_fails df fs D C) as (w & e & E).
  unfold filters. rewrite bind_emit, (bind_err _ _ _ _ E). simpl. eauto.
Qed.

(** A run returns exactly when the date selection can be compared; it
    then returns the rows that pass, their KPIs and their insights. *)
Lemma body_returns (raw : DataFrame) (fs : FilterState) (env : Env) :
  let df := normalize raw in
  let d := select df (passes df fs) in
  comparable df fs = true ->
  exists wd,
    body raw fs env =
      (loaded raw ++ prep_status raw :: StSidebarHeader "FilterWhere"
         :: (wd ++ select_events df fs) ++ after_filters d env,
       Ok (mkDerived d (kpi_of d) (insights d)))
    /\ Forall (fun e => is_date_input e = true) wd
    /\ (date_active df = false -> wd = []).
Proof.
  intros df d C.
  destruct (filters_spec df fs (normalize_dates raw) C) as (wd & F & A & N).
  exists wd. split; [|auto]. now rewrite (body_run _ _ _ _ _ F).
Qed.

Lemma body_raises (raw : DataFrame) (fs : FilterState) (env : Env) :
  comparable (normalize raw) fs = false ->
  exists w e, body raw fs env = (w, Err e).
Proof.
  intros C.
  destruct (filters_fail _ fs (normalize_dates raw) C) as (w & e & F).
  rewrite (body_fail _ _ _ _ _ F). eauto.
Qed.

Lemma body_inv (raw : DataFrame) (fs : FilterState) (env : Env)
  (w : list ui) (der : Derived) :
  body raw fs env = (w, Ok der) ->
  let df := normalize raw in
  let d := select df (passes df fs) in
  comparable df fs = true
  /\ der = mkDerived d (kpi_of d) (insights d)
  /\ exists wd,
       w = loaded raw ++ prep_status raw :: StSidebarHeader "FilterWhere"
             :: (wd ++ select_events df fs) ++ after_filters d env
       /\ Forall (fun e => is_date_input e = true) wd
       /\ (date_active df = false -> wd = []).
Proof.
  intros B df d. destruct (comparable df fs) eqn:C.
  - destruct (body_returns raw fs env C) as (wd & E & F & N).
    fold df d in E. rewrite E in B. injection B as <- <-.
    split; [reflexivity|]. split; [reflexivity|]. exists wd. auto.
  - destruct (body_raises raw fs env C) as (w' & e & E).
    rewrite E in B. discriminate.
Qed.
End Runs.

(** * The claims *)

(** ** KPI totals *)

(** C2. When the run returns (the date selection is a range or a single
    day, or the table has no dates to filter), the filtered table holds
    exactly the rows of the prepared table that satisfy every active
    filter (date within the inclusive range, category ticked, region
    ticked), and total sales and total profit are the sums of their
    columns over those rows, or 0 for a column the table lacks. *)
Theorem kpi_totals_over_passing_rows `{Library} (raw : DataFrame)
  (fs : FilterState) (env : Env) :
  comparable (normalize raw) fs = true ->
  exists w der,
    body raw fs env = (w, Ok der)
    /\ rows (filtered der)
       = filter (passes (normalize raw) fs) (rows (normalize raw))
    /\ kpi_total_sales (summary der)
       = (if has_column (normalize raw) "Sales"
          then sum (map (fun r : row => r "Sales"%string)
                        (filter (passes (normalize raw) fs) (rows (normalize raw))))
          else 0%Qc)
    /\ kpi_total_profit (summary der)
       = (if has_column (normalize raw) "Profit"
          then sum (map (fun r : row => r "Profit"%string)
                        (filter (passes (normalize raw) fs) (rows (normalize raw))))
          else 0%Qc).
Proof.
  intros C. destruct (body_returns raw fs env C) as (wd & E & _).
  eexists _, _. split; [exact E|]. simpl. repeat split.
Qed.

Lemma kpi_totals_witness :
  comparable (@normalize sample_library dated) sample_filters = true
  /\ exists w der,
       @body sample_library dated sample_filters sample_env = (w, Ok der)
       /\ rows (filtered der)
          = filter (passes (@normalize sample_library dated) sample_filters)
                   (rows (@normalize sample_library dated))
       /\ kpi_total_sales (summary der)
          = (if has_column (@normalize sample_library dated) "Sales"
             then sum (map (fun r : row => r "Sales"%string)
                           (filter (passes (@normalize sample_library dated) sample_filters)
                                   (rows (@normalize sample_library dated))))
             else 0%Qc)
       /\ kpi_total_profit (summary der)
          = (if has_column (@normalize sample_library dated) "Profit"
             then sum (map (fun r : row => r "Profit"%string)
                           (filter (passes (@normalize sample_library dated) sample_filters)
                                   (rows (@normalize sample_library dated))))
             else 0%Qc).
Proof.
  split; [reflexivity|].
  apply (@kpi_totals_over_passing_rows sample_library dated sample_filters sample_env).
  reflexivity.
Defined.

(** ** Null categories and regions *)

(** C10. In a run that returns, no row of the filtered table has a null
    category when the table has a Category column, and none has a null
    region when it has a Region column, whichever options are ticked. *)
Theorem null_labels_are_filtered_out `{Library} (raw : DataFrame)
  (fs : FilterState) (env : Env) (w : list ui) (der : Derived) :
  body raw fs env = (w, Ok der) ->
  (has_column raw "Category" = true ->
   forall r, In r (rows (filtered der)) -> r "Category"%string <> NaN)
  /\ (has_column raw "Region" = true ->
      forall r, In r (rows (filtered der)) -> r "Region"%string <> NaN).
Proof.
  intros B. destruct (body_inv _ _ _ _ _ B) as (_ & -> & _). simpl.
  split; intros Hc r I; apply filter_In in I as [_ P];
    unfold passes in P; apply andb_true_iff in P as [P Pr];
    apply andb_true_iff in P as [_ Pc].
  - unfold passes_category in Pc. rewrite normalize_has, Hc in Pc.
    apply andb_true_iff in Pc as [N _]. now apply notna_iff.
  - unfold passes_region in Pr. rewrite normalize_has, Hc in Pr.
    apply andb_true_iff in Pr as [N _]. now apply notna_iff.
Qed.

Lemma null_labels_witness :
  sample_run = (fst sample_run, Ok sample_derived)
  /\ (has_column dated "Category" = true ->
      forall r, In r (rows (filtered sample_derived)) -> r "Category"%string <> NaN)
  /\ (has_column dated "Region" = true ->
      forall r, In r (rows (filtered sample_derived)) -> r "Region"%string <> NaN).
Proof.
  split; [vm_compute; reflexivity|].
  apply (@null_labels_are_filtered_out sample_library dated sample_filters
           sample_env (fst sample_run) sample_derived).
  vm_compute. reflexivity.
Defined.

(** ** Determinism *)

(** C9. What a run returns (the filtered table, the four KPIs and the
    insight list, or the exception) is the same for any two states of
    the host: the clock, the report button and the raw-data checkbox do
    not reach the derived entities. *)
Theorem derived_entities_deterministic `{Library} (raw : DataFrame)
  (fs : FilterState) (env1 env2 : Env) :
  snd (body raw fs env1) = snd (body raw fs env2).
Proof.
  destruct (filters (normalize raw) fs) as [wf [d | e]] eqn:F.
  - now rewrite !(body_run _ _ _ _ _ F).
  - now rewrite !(body_fail _ _ _ _ _ F).
Qed.

(** The host state does reach what is shown: the text report carries the
    time of the run. *)
Lemma report_depends_on_clock :
  fst (@body sample_library dated sample_filters (mkEnv (noon jan15) true false))
  <> fst (@body sample_library dated sample_filters (mkEnv (noon mar02) true false)).
Proof.
  intros E. apply (f_equal report_of) in E. vm_compute in E. discriminate.
Qed.

(** ** Tables without an order date *)

Lemma later_no_time (e : ui) :
  later_event e = true -> is_time_series e = false -> no_time e = true.
Proof. unfold no_time. intros Le ->. now destruct e. Qed.

Lemma later_no_error (e : ui) :
  later_event e = true -> is_time_series e = false -> negb (is_error e) = true.
Proof. intros Le _. now destruct e. Qed.

Lemma later_no_multiselect (e : ui) :
  later_event e = true -> is_time_series e = false ->
  negb (is_multiselect e) = true.
Proof. intros Le _. now destruct e. Qed.

Lemma select_events_forall (P : ui -> bool) (df : DataFrame) (fs : FilterState) :
  (forall l o d, P (StMultiselect l o d) = true) ->
  forallb P (select_events df fs) = true.
Proof.
  intros H. unfold select_events.
  destruct (has_column df "Category"), (has_column df "Region"); simpl;
    now rewrite ?H.
Qed.

Lemma existsb_none {A} (P : A -> bool) (l : list A) :
  forallb (fun x => negb (P x)) l = true -> existsb P l = false.
Proof.
  induction l as [|x t IH]; simpl; [reflexivity|].
  intros F. apply andb_true_iff in F as [Nx Ft].
  apply negb_true_iff in Nx. now rewrite Nx, IH.
Qed.

Lemma loaded_forall (P : ui -> bool) (raw : DataFrame) :
  (forall s, P (StSuccess s) = true) -> (forall s, P (StWrite s) = true) ->
  (forall d, P (StDataframe d) = true) ->
  forallb P (loaded raw) = true.
Proof. intros H1 H2 H3. simpl. now rewrite H1, H2, H3. Qed.

Lemma app_returns `{Library} (raw : DataFrame) (fs : FilterState) (env : Env)
  (w : list ui) (der : Derived) :
  body raw fs env = (w, Ok der) ->
  app (Some (Ok raw)) fs env =
  [StSetPageConfig "Retail Analytics Dashboard" "wide";
   StTitle "🛍️ Retail Analytics Dashboard";
   StMarkdown "Upload your retail dataset (CSV) to explore sales, customers, and trends.";
   StFileUploader "📤 Upload your retail dataset (CSV)"]
  ++ w
  ++ [StMarkdown "---";
      StMarkdown "📊 Retail Analytics Dashboard | Built with ❤️ Streamlit"].
Proof.
  intros B. unfold app, lift. rewrite (bind_ok _ _ _ _ eq_refl), B. reflexivity.
Qed.

(** C7. For a table without an OrderDate column the run returns; it
    shows the warning that the column is missing, then every stage that
    does not depend on dates (the category and region selectors, the
    KPIs, the insights, the other charts, the downloads, the raw-data
    checkbox); it shows no date input and nothing of the time-series
    chart, and the page shows no error. *)
Theorem no_OrderDate_column `{Library} (raw : DataFrame) (fs : FilterState)
  (env : Env) :
  has_column raw "OrderDate" = false ->
  exists w der,
    body raw fs env = (w, Ok der)
    /\ w = loaded raw
           ++ StWarning "⚠️ 'OrderDate' column not found — time-series charts disabled."
           :: StSidebarHeader "FilterWhere"
           :: select_events (normalize raw) fs
           ++ after_filters (select (normalize raw) (passes (normalize raw) fs)) env
    /\ forallb no_time w = true
    /\ existsb is_error (app (Some (Ok raw)) fs env) = false.
Proof.
  intros Hd.
  assert (A : date_active (normalize raw) = false).
  { unfold date_active. now rewrite normalize_has, Hd. }
  assert (C : comparable (normalize raw) fs = true).
  { unfold comparable. now rewrite A. }
  destruct (body_returns raw fs env C) as (wd & E & _ & N).
  rewrite (N A) in E.
  assert (S : prep_status raw
              = StWarning "⚠️ 'OrderDate' column not found — time-series charts disabled.").
  { unfold prep_status. now rewrite Hd. }
  rewrite S in E. change ([] ++ select_events (normalize raw) fs)
    with (select_events (normalize raw) fs) in E.
  set (d := select (normalize raw) (passes (normalize raw) fs)) in *.
  assert (T : sales_over_time_chart d = ([], Ok tt)).
  { apply sales_over_time_chart_absent. unfold d.
    now rewrite has_column_select, normalize_has. }
  eexists _, _. split; [exact E|]. split; [reflexivity|]. split.
  - rewrite forallb_app, loaded_forall by reflexivity.
    simpl forallb. rewrite forallb_app, select_events_forall by reflexivity.
    rewrite (after_filters_forall no_time later_no_time) by now rewrite T.
    reflexivity.
  - rewrite (app_returns _ _ _ _ _ E). apply existsb_none.
    rewrite !forallb_app, loaded_forall by reflexivity.
    simpl forallb. rewrite forallb_app, select_events_forall by reflexivity.
    rewrite (after_filters_forall (fun e => negb (is_error e)) later_no_error)
      by now rewrite T.
    reflexivity.
Qed.

Lemma no_OrderDate_witness :
  has_column sales_only "OrderDate" = false
  /\ exists w der,
       @body sample_library sales_only (all_picked (SelTuple [jan15])) sample_env
       = (w, Ok der)
       /\ w = loaded sales_only
              ++ StWarning "⚠️ 'OrderDate' column not found — time-series charts disabled."
              :: StSidebarHeader "FilterWhere"
              :: select_events (@normalize sample_library sales_only)
                   (all_picked (SelTuple [jan15]))
              ++ @after_filters sample_library
                   (select (@normalize sample_library sales_only)
                      (passes (@normalize sample_library sales_only)
                         (all_picked (SelTuple [jan15])))) sample_env
       /\ forallb no_time w = true
       /\ existsb is_error
            (@app sample_library (Some (Ok sales_only))
               (all_picked (SelTuple [jan15])) sample_env) = false.
Proof.
  split; [reflexivity|].
  apply (@no_OrderDate_column sample_library sales_only
           (all_picked (SelTuple [jan15])) sample_env).
  reflexivity.
Defined.

(** ** Category options *)

Lemma offered_app (label : string) (a b : list ui) :
  offered label (a ++ b) = offered label a ++ offered label b.
Proof. unfold offered. apply flat_map_app. Qed.

Lemma offered_none (label : string) (w : list ui) :
  forallb (fun e => negb (is_multiselect e)) w = true -> offered label w = [].
Proof.
  induction w as [|e t IH]; simpl; [reflexivity|].
  intros F. apply andb_true_iff in F as [Ne Ft]. rewrite (IH Ft).
  now destruct e.
Qed.

Lemma offered_cons_plain (label : string) (e : ui) (w : list ui) :
  negb (is_multiselect e) = true -> offered label (e :: w) = offered label w.
Proof. now destruct e. Qed.

Lemma date_input_no_multiselect (wd : list ui) :
  Forall (fun e => is_date_input e = true) wd ->
  forallb (fun e => negb (is_multiselect e)) wd = true.
Proof.
  intros F. apply forallb_Forall. eapply Forall_impl; [|exact F].
  intros e. now destruct e.
Qed.

Lemma In_cat_options (d : DataFrame) (v : cell) :
  In v (cat_options d) <->
  v <> NaN /\ exists r, In r (rows d) /\ r "Category"%string = v.
Proof.
  unfold cat_options, col. rewrite In_unique, In_dropna, in_map_iff.
  split.
  - intros [(r & E & I) N]. eauto.
  - intros [N (r & I & E)]. eauto.
Qed.

(** C5. In a run that returns on a table with a Category column, the
    category multi-select is shown once, and its options are, without
    repetition, the non-null Category values of the rows that pass the
    date filter (the category and region filters not yet applied). *)
Theorem category_options_offered `{Library} (raw : DataFrame)
  (fs : FilterState) (env : Env) (w : list ui) (der : Derived) :
  body raw fs env = (w, Ok der) ->
  has_column raw "Category" = true ->
  exists options,
    offered "🛍️ Category" w = [options]
    /\ NoDup options
    /\ forall v,
         In v options <->
         v <> NaN
         /\ exists r, In r (rows (normalize raw))
                      /\ passes_date (normalize raw) fs r = true
                      /\ r "Category"%string = v.
Proof.
  intros B Hc. destruct (body_inv _ _ _ _ _ B) as (_ & _ & wd & -> & F & _).
  exists (cat_options (date_filtered (normalize raw) fs)).
  split; [|split; [apply NoDup_unique|]].
  - rewrite offered_app, (offered_none _ (loaded raw)) by reflexivity.
    rewrite offered_cons_plain
      by (unfold prep_status; destruct (has_column raw "OrderDate");
          [destruct (forallb _ _)|]; reflexivity).
    rewrite offered_cons_plain by reflexivity.
    rewrite !offered_app.
    rewrite (offered_none _ wd) by now apply date_input_no_multiselect.
    rewrite (offered_none _ (after_filters _ _)).
    + unfold select_events. rewrite normalize_has, Hc.
      destruct (has_column (normalize raw) "Region"); reflexivity.
    + apply (after_filters_forall _ later_no_multiselect).
      now apply sales_over_time_chart_forall.
  - intros v. rewrite In_cat_options. unfold date_filtered. simpl rows. split.
    + intros (N & r & Ir & E). apply filter_In in Ir as [Ir P]. eauto.
    + intros (N & r & Ir & P & E). split; [exact N|].
      exists r. split; [|exact E]. apply filter_In. auto.
Qed.

Lemma category_options_witness :
  sample_run = (fst sample_run, Ok sample_derived)
  /\ has_column dated "Category" = true
  /\ exists options,
       offered "🛍️ Category" (fst sample_run) = [options]
       /\ NoDup options
       /\ forall v,
            In v options <->
            v <> NaN
            /\ exists r, In r (rows (@normalize sample_library dated))
                         /\ passes_date (@normalize sample_library dated)
                              sample_filters r = true
                         /\ r "Category"%string = v.
Proof.
  split; [vm_compute; reflexivity|]. split; [reflexivity|].
  apply (@category_options_offered sample_library dated sample_filters
           sample_env (fst sample_run) sample_derived).
  - vm_compute. reflexivity.
  - reflexivity.
Defined.

(** ** The normalizer *)

(** C8. Data preparation returns without raising and shows one status,
    a warning or an information: the warning that no date could be
    parsed exactly when the OrderDate column exists and every parsed
    entry is null (information otherwise), the warning that the column
    is missing when it does not exist.  The prepared table has the
    labels and the number of rows of the raw one; OrderDate holds the
    parsed dates, null where parsing failed; each of Sales, Quantity,
    Profit and UnitPrice that exists holds the parsed numbers, null
    where parsing failed; every other column is unchanged. *)
Theorem normalizer_frame `{Library} (raw : DataFrame) :
  data_prep raw = ([prep_status raw], Ok (normalize raw))
  /\ ((exists s, prep_status raw = StWarning s)
      \/ (exists s, prep_status raw = StInfo s))
  /\ (prep_status raw
      = StWarning "⚠️ 'OrderDate' column exists but could not parse any dates."
      <-> has_column raw "OrderDate" = true
          /\ Forall (fun o => o = None) (to_datetime (col raw "OrderDate")))
  /\ map fst (columns (normalize raw)) = map fst (columns raw)
  /\ len (normalize raw) = len raw
  /\ (forall c, ~ In c ("OrderDate"%string :: numeric_cols) ->
                col (normalize raw) c = col raw c)
  /\ col (normalize raw) "OrderDate"
     = (if has_column raw "OrderDate"
        then map (of_option Dt) (to_datetime (col raw "OrderDate"))
        else col raw "OrderDate")
  /\ (forall c, In c numeric_cols ->
                col (normalize raw) c
                = if has_column raw c
                  then map (of_option Num) (to_numeric (col raw c))
                  else col raw c).
Proof.
  split; [apply data_prep_eq|]. split; [|split].
  - unfold prep_status. destruct (has_column raw "OrderDate");
      [destruct (forallb _ _)|]; eauto.
  - unfold prep_status. destruct (has_column raw "OrderDate").
    + destruct (forallb _ _) eqn:F.
      * split; [|reflexivity]. intros _. split; [reflexivity|].
        apply Forall_forall. intros o I.
        rewrite forallb_forall in F. specialize (F o I). now destruct o.
      * split; [discriminate|]. intros [_ A]. exfalso.
        assert (T : forallb (fun o : option Timestamp =>
                               match o with None => true | Some _ => false end)
                      (to_datetime (col raw "OrderDate")) = true).
        { apply forallb_forall. intros o I.
          rewrite Forall_forall in A. now rewrite (A o I). }
        congruence.
    + split; [discriminate|]. intros [D _]. discriminate.
  - destruct (normalize_agree raw) as (N & Ln & C).
    repeat split; auto using normalize_OrderDate, normalize_numeric.
Qed.

(** ** Average order value *)

Lemma total_orders_distinct (d : DataFrame) (ids : list cell) :
  has_column d "OrderID" = true ->
  NoDup ids ->
  (forall v, In v ids <->
             v <> NaN /\ exists r, In r (rows d) /\ r "OrderID"%string = v) ->
  total_orders d = List.length ids.
Proof.
  intros Hc ND EQ. unfold total_orders. rewrite Hc.
  apply nunique_spec; [exact ND|]. intros v. rewrite EQ. unfold col.
  rewrite in_map_iff. split.
  - intros (N & r & I & E). eauto.
  - intros [(r & E & I) N]. eauto.
Qed.

(** C1, as the code has it.  In a run that returns, the divisor of the
    average order value is the order count: the number of distinct
    non-null OrderID values of the filtered rows when the table has an
    OrderID column, and the number of filtered rows when it has none.
    The average is total sales divided by that count when the count is
    positive and 0 when it is 0; the division is never done with a zero
    divisor; the value is the one displayed. *)
Theorem avg_order_value_by_order_count `{Library} (raw : DataFrame)
  (fs : FilterState) (env : Env) (w : list ui) (der : Derived) :
  body raw fs env = (w, Ok der) ->
  let d := filtered der in
  let k := summary der in
  (has_column d "OrderID" = true ->
   forall ids, NoDup ids ->
     (forall v, In v ids <->
                v <> NaN /\ exists r, In r (rows d) /\ r "OrderID"%string = v) ->
     kpi_total_orders k = List.length ids)
  /\ (has_column d "OrderID" = false -> kpi_total_orders k = List.length (rows d))
  /\ avg_order_value d = Ok (kpi_avg_order_value k)
  /\ kpi_avg_order_value k
     = (if Nat.eqb (kpi_total_orders k) 0 then 0%Qc
        else (kpi_total_sales k / Qc_of_nat (kpi_total_orders k))%Qc)
  /\ In (StMetric "Avg Order Value" (format_money (kpi_avg_order_value k))) w.
Proof.
  intros B d k. destruct (body_inv _ _ _ _ _ B) as (_ & E & wd & W & _).
  subst der. simpl in d, k. subst d k. simpl.
  set (d := select (normalize raw) (passes (normalize raw) fs)) in *.
  split; [|split; [|split; [|split]]].
  - intros Hc ids ND EQ. apply (total_orders_distinct d ids Hc ND EQ).
  - intros Hc. unfold total_orders. now rewrite Hc.
  - apply avg_order_value_ok.
  - unfold avg_value, avg_order_value, truediv.
    destruct (total_orders d) eqn:T; reflexivity.
  - subst w. apply in_or_app. right. right. right. apply in_or_app. right.
    unfold after_filters. apply in_or_app. left. rewrite kpis_eq. simpl. auto.
Qed.

Lemma avg_order_value_witness :
  sample_run = (fst sample_run, Ok sample_derived)
  /\ (let d := filtered sample_derived in
      let k := summary sample_derived in
      (has_column d "OrderID" = true ->
       forall ids, NoDup ids ->
         (forall v, In v ids <->
                    v <> NaN /\ exists r, In r (rows d) /\ r "OrderID"%string = v) ->
         kpi_total_orders k = List.length ids)
      /\ (has_column d "OrderID" = false ->
          kpi_total_orders k = List.length (rows d))
      /\ avg_order_value d = Ok (kpi_avg_order_value k)
      /\ kpi_avg_order_value k
         = (if Nat.eqb (kpi_total_orders k) 0 then 0%Qc
            else (kpi_total_sales k / Qc_of_nat (kpi_total_orders k))%Qc)
      /\ In (StMetric "Avg Order Value" (format_money (kpi_avg_order_value k)))
            (fst sample_run)).
Proof.
  split; [vm_compute; reflexivity|].
  apply (@avg_order_value_by_order_count sample_library dated sample_filters
           sample_env (fst sample_run) sample_derived).
  vm_compute. reflexivity.
Defined.

(** C1, as stated, fails on a table without an OrderID column: with two
    rows of sales 100 and 200 the displayed average is 150.00, the sales
    divided by the number of rows, while the table has no distinct
    OrderID value at all, for which the claim gives 0. *)
Lemma avg_order_value_not_by_distinct_orders :
  exists w der,
    @body sample_library sales_only (all_picked (SelDate jan15)) sample_env
    = (w, Ok der)
    /\ In (StMetric "Avg Order Value" "$150.00") w
    /\ kpi_total_orders (summary der) = 2%nat
    /\ distinct_order_count (filtered der) = 0%nat
    /\ sales_per_distinct_order (filtered der) = 0%Qc
    /\ kpi_avg_order_value (summary der) <> sales_per_distinct_order (filtered der).
Proof.
  destruct (@body_returns sample_library sales_only (all_picked (SelDate jan15))
              sample_env eq_refl) as (wd & E & _).
  eexists _, _. split; [exact E|]. simpl filtered. simpl summary.
  split; [|split; [|split; [|split]]].
  - apply in_or_app. right. right. right. apply in_or_app. right.
    unfold after_filters. apply in_or_app. left. rewrite kpis_eq.
    right. right. right. left. vm_compute. reflexivity.
  - reflexivity.
  - reflexivity.
  - reflexivity.
  - intros A. apply (f_equal this) in A. vm_compute in A. discriminate.
Qed.

(** ** The CSV summary *)

Section Reader.
Variables (record : list string) (done : list (list string)).

Lemma read_plain (l : list ascii) :
  existsb special l = false ->
  forall (st : rstate) (field rest : list ascii),
    st = FieldStart \/ st = InField ->
    exists st', (st' = FieldStart \/ st' = InField)
      /\ read_csv_from st field record done (l ++ rest)
         = read_csv_from st' (rev l ++ field) record done rest.
Proof.
  induction l as [|c l IH]; intros S st field rest Hst.
  - exists st. auto.
  - simpl in S. apply orb_false_iff in S as [Sc Sl].
    unfold special in Sc.
    apply orb_false_iff in Sc as [Sc _].
    apply orb_false_iff in Sc as [Sc Slf].
    apply orb_false_iff in Sc as [Sco Sq].
    destruct (IH Sl InField (c :: field) rest (or_intror eq_refl))
      as (st' & Hst' & E).
    exists st'. split; [exact Hst'|].
    replace (rev (c :: l) ++ field) with (rev l ++ c :: field)
      by (simpl; now rewrite <- app_assoc).
    rewrite <- E.
    destruct Hst as [-> | ->]; simpl; now rewrite Sco, Slf, Sq.
Qed.

Lemma read_escaped (l : list ascii) :
  forall field rest : list ascii,
    read_csv_from InQuoted field record done (escape l ++ rest)
    = read_csv_from InQuoted (rev l ++ field) record done rest.
Proof.
  induction l as [|c l IH]; intros field rest; [reflexivity|].
  replace (rev (c :: l) ++ field) with (rev l ++ c :: field)
    by (simpl; now rewrite <- app_assoc).
  rewrite <- IH. unfold escape. simpl flat_map.
  destruct (Ascii.eqb c dquote) eqn:Q.
  - apply Ascii.eqb_eq in Q. subst c. reflexivity.
  - simpl. now rewrite Q.
Qed.

Lemma str_rev_rev (f : string) :
  str (rev (rev (list_ascii_of_string f) ++ [])) = f.
Proof.
  rewrite app_nil_r, rev_involutive. apply string_of_list_ascii_of_string.
Qed.

(** A written field followed by a comma is read back as the field. *)
Lemma read_field_comma (f : string) (rest : list ascii) :
  read_csv_from FieldStart [] record done (quote_field f ++ comma :: rest)
  = read_csv_from FieldStart [] (f :: record) done rest.
Proof.
  unfold quote_field.
  destruct (existsb special (list_ascii_of_string f)) eqn:S.
  - change (read_csv_from FieldStart [] record done
              ((dquote :: escape (list_ascii_of_string f) ++ [dquote])
               ++ comma :: rest))
      with (read_csv_from InQuoted [] record done
              ((escape (list_ascii_of_string f) ++ [dquote]) ++ comma :: rest)).
    rewrite <- app_assoc, read_escaped. simpl. now rewrite str_rev_rev.
  - destruct (read_plain _ S FieldStart [] (comma :: rest) (or_introl eq_refl))
      as (st' & [-> | ->] & ->); simpl; now rewrite str_rev_rev.
Qed.

(** A written field followed by a line break ends the record. *)
Lemma read_field_LF (f : string) (rest : list ascii) :
  read_csv_from FieldStart [] record done (quote_field f ++ LF :: rest)
  = read_csv_from FieldStart [] [] (rev (f :: record) :: done) rest.
Proof.
  unfold quote_field.
  destruct (existsb special (list_ascii_of_string f)) eqn:S.
  - change (read_csv_from FieldStart [] record done
              ((dquote :: escape (list_ascii_of_string f) ++ [dquote])
               ++ LF :: rest))
      with (read_csv_from InQuoted [] record done
              ((escape (list_ascii_of_string f) ++ [dquote]) ++ LF :: rest)).
    rewrite <- app_assoc, read_escaped. simpl. now rewrite str_rev_rev.
  - destruct (read_plain _ S FieldStart [] (LF :: rest) (or_introl eq_refl))
      as (st' & [-> | ->] & ->); simpl; now rewrite str_rev_rev.
Qed.
End Reader.

Lemma read_record (fields : list string) :
  fields <> [] ->
  forall (record : list string) (done : list (list string)) (rest : list ascii),
    read_csv_from FieldStart [] record done (csv_record fields ++ rest)
    = read_csv_from FieldStart [] [] ((rev record ++ fields) :: done) rest.
Proof.
  induction fields as [|f [|g t] IH]; intros N record done rest.
  - contradiction.
  - change (csv_record [f]) with (quote_field f ++ [LF]).
    rewrite <- app_assoc. change ([LF] ++ rest) with (LF :: rest).
    rewrite read_field_LF. reflexivity.
  - change (csv_record (f :: g :: t))
      with (quote_field f ++ comma :: csv_record (g :: t)).
    rewrite <- app_assoc.
    change ((comma :: csv_record (g :: t)) ++ rest)
      with (comma :: csv_record (g :: t) ++ rest).
    rewrite read_field_comma.
    rewrite IH by discriminate. simpl rev. now rewrite <- app_assoc.
Qed.

Lemma read_records (records : list (list string)) :
  Forall (fun r => r <> []) records ->
  forall done,
    read_csv_from FieldStart [] [] done (flat_map csv_record records)
    = rev done ++ records.
Proof.
  induction records as [|r rs IH]; intros F done.
  - simpl. now rewrite app_nil_r.
  - inversion F as [|? ? Nr Frs]; subst. simpl flat_map.
    rewrite (read_record r Nr), (IH Frs). simpl.
    now rewrite <- app_assoc.
Qed.

(** Reading back a written table gives the header and the rows. *)
Lemma read_to_csv (header : list string) (body : list (list string)) :
  header <> [] -> Forall (fun r => r <> []) body ->
  read_csv_text (to_csv header body) = header :: body.
Proof.
  intros Nh Fb. unfold read_csv_text, to_csv, str.
  rewrite list_ascii_of_string_of_list_ascii.
  now rewrite read_records by (constructor; assumption).
Qed.

Lemma read_summary (k : KPISummary) :
  read_csv_text (csv k)
  = [["Metric"; "Value"];
     ["Total Sales"; format_money (kpi_total_sales k)];
     ["Total Orders"; format_int (Z.of_nat (kpi_total_orders k))];
     ["Avg Order Value"; format_money (kpi_avg_order_value k)];
     ["Total Profit"; format_money (kpi_total_profit k)]]%string.
Proof.
  unfold csv. rewrite read_to_csv.
  - reflexivity.
  - discriminate.
  - unfold summary_df, displayed. simpl. repeat constructor; discriminate.
Qed.

Lemma in_after_filters `{Library} (e : ui) (pre wd sel : list ui) (st : ui)
  (d : DataFrame) (env : Env) :
  In e (after_filters d env) ->
  In e (pre ++ st :: StSidebarHeader "FilterWhere" :: (wd ++ sel)
              ++ after_filters d env).
Proof.
  intros I. apply in_or_app. right. right. right. apply in_or_app. now right.
Qed.

(** C6. In a run that returns, the four KPI values are displayed as
    their formatted strings, and the CSV offered for download, read
    back, has the header Metric, Value and exactly four rows, one per
    KPI, each holding the name of the metric and the very string that
    is displayed. *)
Theorem csv_summary_round_trip `{Library} (raw : DataFrame) (fs : FilterState)
  (env : Env) (w : list ui) (der : Derived) :
  body raw fs env = (w, Ok der) ->
  let k := summary der in
  incl [StMetric "Total Sales" (format_money (kpi_total_sales k));
        StMetric "Total Orders" (format_int (Z.of_nat (kpi_total_orders k)));
        StMetric "Avg Order Value" (format_money (kpi_avg_order_value k));
        StMetric "Total Profit" (format_money (kpi_total_profit k))] w
  /\ In (StDownloadButton "📥 Download CSV Summary" (csv k) "summary.csv" "text/csv") w
  /\ read_csv_text (csv k)
     = [["Metric"; "Value"];
        ["Total Sales"; format_money (kpi_total_sales k)];
        ["Total Orders"; format_int (Z.of_nat (kpi_total_orders k))];
        ["Avg Order Value"; format_money (kpi_avg_order_value k)];
        ["Total Profit"; format_money (kpi_total_profit k)]]%string.
Proof.
  intros B k. destruct (body_inv _ _ _ _ _ B) as (_ & E & wd & W & _).
  subst der w. simpl in k. subst k.
  set (d := select (normalize raw) (passes (normalize raw) fs)).
  split; [|split].
  - intros e I. apply in_after_filters. unfold after_filters.
    apply in_or_app. left. rewrite kpis_eq. right. exact I.
  - apply in_after_filters. unfold after_filters.
    apply in_or_app. right. apply in_or_app. right. apply in_or_app. right.
    apply in_or_app. left. unfold downloads. rewrite !bind_emit.
    right. left. reflexivity.
  - apply read_summary.
Qed.

Lemma csv_summary_witness :
  sample_run = (fst sample_run, Ok sample_derived)
  /\ (let k := summary sample_derived in
      incl [StMetric "Total Sales" (format_money (kpi_total_sales k));
            StMetric "Total Orders" (format_int (Z.of_nat (kpi_total_orders k)));
            StMetric "Avg Order Value" (format_money (kpi_avg_order_value k));
            StMetric "Total Profit" (format_money (kpi_total_profit k))]
           (fst sample_run)
      /\ In (StDownloadButton "📥 Download CSV Summary" (csv k) "summary.csv"
               "text/csv") (fst sample_run)
      /\ read_csv_text (csv k)
         = [["Metric"; "Value"];
            ["Total Sales"; format_money (kpi_total_sales k)];
            ["Total Orders"; format_int (Z.of_nat (kpi_total_orders k))];
            ["Avg Order Value"; format_money (kpi_avg_order_value k)];
            ["Total Profit"; format_money (kpi_total_profit k)]]%string).
Proof.
  split; [vm_compute; reflexivity|].
  apply (@csv_summary_round_trip sample_library dated sample_filters sample_env
           (fst sample_run) sample_derived).
  vm_compute. reflexivity.
Defined.

(** A value with a thousands separator is written quoted and read back
    unchanged. *)
Example csv_with_separator :
  let k := mkKPI (Q2Qc (inject_Z 1234567)) 1200 (Q2Qc (205761 # 200)) (Q2Qc (- (1 # 8))) in
  csv k = ("Metric,Value" +++ nl
           +++ "Total Sales," +++ String dquote "$1,234,567.00" +++ String dquote nl
           +++ "Total Orders," +++ String dquote "1,200" +++ String dquote nl
           +++ "Avg Order Value," +++ String dquote "$1,028.80" +++ String dquote nl
           +++ "Total Profit,$-0.12" +++ nl)%string
  /\ map (fun r => nth 1 r EmptyString) (read_csv_text (csv k))
     = ["Value"; "$1,234,567.00"; "1,200"; "$1,028.80"; "$-0.12"]%string.
Proof. split; vm_compute; reflexivity. Qed.

(** ** Order of the group keys *)

Section Comparisons.
Context {A : Type}.

Lemma cmp_cong_r (c : A -> A -> comparison) (H : cmp_ok c) (x y : A) :
  c x y = Eq -> forall z, c z x = c z y.
Proof.
  intros E z. now rewrite (cmp_anti c H x z), (cmp_anti c H y z), (cmp_cong c H x y E).
Qed.

Lemma cmp_proj {B : Type} (f : A -> B) (c : B -> B -> comparison) :
  cmp_ok c -> cmp_ok (fun x y => c (f x) (f y)).
Proof.
  intros [R An T C]. constructor; intros; eauto.
Qed.

(** Comparing by a first criterion, then by a second one. *)
Lemma cmp_lex (c1 c2 : A -> A -> comparison) :
  cmp_ok c1 -> cmp_ok c2 ->
  cmp_ok (fun x y => match c1 x y with Eq => c2 x y | r => r end).
Proof.
  intros H1 H2. constructor.
  - intros x. now rewrite (cmp_refl c1 H1), (cmp_refl c2 H2).
  - intros x y. rewrite (cmp_anti c1 H1 x y), (cmp_anti c2 H2 x y).
    now destruct (c1 x y).
  - intros x y z.
    destruct (c1 x y) eqn:Exy; try discriminate;
      destruct (c1 y z) eqn:Eyz; try discriminate; intros Lxy Lyz.
    + rewrite (cmp_cong c1 H1 x y Exy z), Eyz. eapply cmp_trans; eauto.
    + now rewrite (cmp_cong c1 H1 x y Exy z), Eyz.
    + now rewrite <- (cmp_cong_r c1 H1 y z Eyz x), Exy.
    + now rewrite (cmp_trans c1 H1 x y z Exy Eyz).
  - intros x y E z. destruct (c1 x y) eqn:Exy; try discriminate.
    rewrite (cmp_cong c1 H1 x y Exy z). destruct (c1 y z); auto.
    now apply (cmp_cong c2 H2).
Qed.

Variable c : A -> A -> comparison.
Hypothesis H : cmp_ok c.

Lemma le_of_total (x y : A) : le_of c x y = false -> le_of c y x = true.
Proof.
  unfold le_of. rewrite (cmp_anti c H x y). now destruct (c x y).
Qed.

Lemma le_of_trans (x y z : A) :
  le_of c x y = true -> le_of c y z = true -> le_of c x z = true.
Proof.
  unfold le_of.
  destruct (c x y) eqn:Exy; try discriminate;
    destruct (c y z) eqn:Eyz; try discriminate; intros _ _.
  - now rewrite (cmp_cong c H x y Exy z), Eyz.
  - now rewrite (cmp_cong c H x y Exy z), Eyz.
  - now rewrite <- (cmp_cong_r c H y z Eyz x), Exy.
  - now rewrite (cmp_trans c H x y z Exy Eyz).
Qed.
End Comparisons.

Lemma Z_compare_ok : cmp_ok Z.compare.
Proof.
  constructor.
  - apply Z.compare_refl.
  - intros x y. apply Z.compare_antisym.
  - intros x y z. rewrite !Z.compare_lt_iff. lia.
  - intros x y E z. apply Z.compare_eq in E. now subst.
Qed.

Lemma Qc_compare_ok : cmp_ok Qccompare.
Proof.
  constructor.
  - intros x. unfold Qccompare. apply Qeq_alt. reflexivity.
  - intros x y. unfold Qccompare. symmetry. apply Qcompare_antisym.
  - intros x y z. unfold Qccompare. rewrite <- !Qlt_alt. apply Qlt_trans.
  - intros x y E z. apply Qceq_alt in E. now subst.
Qed.

Lemma string_compare_ok : cmp_ok String_as_OT.compare.
Proof.
  assert (Irr : forall x, ~ String_as_OT.lt x x)
    by apply (@StrictOrder_Irreflexive _ _ String_as_OT.lt_strorder).
  assert (Tr : forall x y z, String_as_OT.lt x y -> String_as_OT.lt y z ->
                             String_as_OT.lt x z)
    by apply (@StrictOrder_Transitive _ _ String_as_OT.lt_strorder).
  constructor.
  - intros x. destruct (String_as_OT.compare_spec x x) as [E | L | L];
      [reflexivity | |]; now apply Irr in L.
  - intros x y.
    destruct (String_as_OT.compare_spec x y) as [E | L | L];
      destruct (String_as_OT.compare_spec y x) as [E' | L' | L'];
      try reflexivity; exfalso; unfold String_as_OT.eq in *; subst;
      try (now apply Irr in L); try (now apply Irr in L');
      apply (Irr x); eauto.
  - intros x y z. apply Tr.
  - intros x y E z.
    destruct (String_as_OT.compare_spec x y) as [E' | L | L]; try discriminate.
    unfold String_as_OT.eq in E'. now subst.
Qed.

Lemma date_compare_ok : cmp_ok date_compare.
Proof.
  unfold date_compare.
  apply (cmp_lex (fun a b => (year a ?= year b)%Z)
                 (fun a b => match (month a ?= month b)%Z with
                             | Eq => (day a ?= day b)%Z
                             | r => r
                             end)).
  - apply (cmp_proj year), Z_compare_ok.
  - apply (cmp_lex (fun a b => (month a ?= month b)%Z)
                   (fun a b => (day a ?= day b)%Z)).
    + apply (cmp_proj month), Z_compare_ok.
    + apply (cmp_proj day), Z_compare_ok.
Qed.

Lemma ts_compare_ok : cmp_ok ts_compare.
Proof.
  unfold ts_compare.
  apply (cmp_lex (fun a b => date_compare (ts_date a) (ts_date b))
                 (fun a b => (ts_ns a ?= ts_ns b)%Z)).
  - apply (cmp_proj ts_date), date_compare_ok.
  - apply (cmp_proj ts_ns), Z_compare_ok.
Qed.

Lemma cell_compare_ok : cmp_ok cell_compare.
Proof.
  pose proof Qc_compare_ok as Q. pose proof string_compare_ok as S.
  pose proof ts_compare_ok as T.
  constructor.
  - intros [ | x | s | t]; simpl; [reflexivity | | |]; now apply cmp_refl.
  - intros [ | x | s | t] [ | y | s' | t']; simpl; try reflexivity;
      now apply cmp_anti.
  - intros [ | x | s | t] [ | y | s' | t'] [ | z | s'' | t'']; simpl;
      try discriminate; try reflexivity; now apply cmp_trans.
  - intros [ | x | s | t] [ | y | s' | t']; simpl; try discriminate;
      intros E [ | z | s'' | t'']; simpl; try reflexivity;
      now apply cmp_cong.
Qed.

Lemma cell_leb_le_of (a b : cell) : cell_leb a b = le_of cell_compare a b.
Proof. reflexivity. Qed.

Lemma cell_leb_total (a b : cell) : cell_leb a b = false -> cell_leb b a = true.
Proof. rewrite !cell_leb_le_of. apply le_of_total, cell_compare_ok. Qed.

Lemma cell_leb_trans (a b c : cell) :
  cell_leb a b = true -> cell_leb b c = true -> cell_leb a c = true.
Proof. rewrite !cell_leb_le_of. apply le_of_trans, cell_compare_ok. Qed.

(** ** Grouped sums and their maximum *)

Lemma insert_key_perm (k : cell) (l : list cell) :
  Permutation (insert_key k l) (k :: l).
Proof.
  induction l as [|h t IH]; simpl; [reflexivity|].
  destruct (cell_leb k h); [reflexivity|].
  rewrite IH. apply perm_swap.
Qed.

Lemma sort_keys_perm (l : list cell) : Permutation (sort_keys l) l.
Proof.
  induction l as [|k t IH]; simpl; [reflexivity|].
  rewrite insert_key_perm. now constructor.
Qed.

Lemma insert_key_sorted (k : cell) (l : list cell) :
  StronglySorted key_le l -> StronglySorted key_le (insert_key k l).
Proof.
  induction 1 as [|h t S IH F]; simpl.
  - repeat constructor.
  - destruct (cell_leb k h) eqn:E.
    + constructor; [now constructor|]. constructor; [exact E|].
      eapply Forall_impl; [|exact F]. intros x Hx.
      exact (cell_leb_trans _ _ _ E Hx).
    + constructor; [exact IH|].
      apply (Permutation_Forall (Permutation_sym (insert_key_perm k t))).
      constructor; [|exact F]. now apply cell_leb_total.
Qed.

Lemma sort_keys_sorted (l : list cell) : StronglySorted key_le (sort_keys l).
Proof.
  induction l as [|k t IH]; simpl; [constructor|]. now apply insert_key_sorted.
Qed.

Lemma sorted_after (k : cell) (before after : list cell) :
  StronglySorted key_le (before ++ k :: after) -> Forall (key_le k) after.
Proof.
  induction before as [|b t IH]; simpl; intros S; inversion S; subst; auto.
Qed.

(** The entry returned by [argmax] is the first one holding the largest
    value: the entries before it hold less, those after it no more. *)
Lemma argmax_first (best : cell * Qc) (s : list (cell * Qc)) :
  exists before after,
    best :: s = before ++ argmax best s :: after
    /\ Forall (fun e => (snd e < snd (argmax best s))%Qc) before
    /\ Forall (fun e => (snd e <= snd (argmax best s))%Qc) after.
Proof.
  revert best. induction s as [|e t IH]; intros best.
  - exists [], []. simpl. auto.
  - assert (Keep : (snd e <= snd best)%Qc ->
                   exists before after,
                     best :: e :: t = before ++ argmax best t :: after
                     /\ Forall (fun x => (snd x < snd (argmax best t))%Qc) before
                     /\ Forall (fun x => (snd x <= snd (argmax best t))%Qc) after).
    { intros Le. destruct (IH best) as (before & after & E & B & A).
      destruct before as [|b before']; simpl in E; injection E as Eb Et.
      - subst after. exists [], (e :: t). simpl. rewrite <- Eb in *.
        repeat split; auto.
      - subst b. exists (best :: e :: before'), after.
        inversion B as [|? ? Hb Hbefore]; subst. split; [|split].
        + simpl. do 2 f_equal. exact Et.
        + constructor; [assumption|]. constructor; [|assumption].
          eapply Qcle_lt_trans; eauto.
        + assumption. }
    simpl argmax. destruct (Qccompare (snd e) (snd best)) eqn:C.
    + apply Keep. apply Qceq_alt in C. rewrite C. apply Qcle_refl.
    + apply Keep. apply Qclt_alt in C. now apply Qclt_le_weak.
    + destruct (IH e) as (before & after & E & B & A).
      apply Qcgt_alt in C.
      exists (best :: before), after. split; [|split].
      * simpl. f_equal. exact E.
      * constructor; [|exact B].
        destruct before as [|b before']; simpl in E; injection E as Eb _.
        -- now rewrite <- Eb.
        -- subst b. inversion B; subst. eapply Qclt_trans; eauto.
      * exact A.
Qed.

Lemma groupby_sum_eq (d : DataFrame) (key : string) :
  groupby_sum d key "Sales"
  = map (fun k => (k, group_total d key k))
        (sort_keys (unique (dropna (col d key)))).
Proof. reflexivity. Qed.

Lemma In_group_keys (d : DataFrame) (key : string) (k : cell) :
  In k (sort_keys (unique (dropna (col d key)))) <-> group_key d key k.
Proof.
  unfold group_key. split.
  - intros I. apply (Permutation_in _ (sort_keys_perm _)) in I.
    apply In_unique, In_dropna in I as [I N]. split; [exact N|].
    unfold col in I. apply in_map_iff in I as (r & E & Ir). eauto.
  - intros (N & r & Ir & E).
    apply (Permutation_in _ (Permutation_sym (sort_keys_perm _))).
    apply In_unique, In_dropna. split; [|exact N].
    unfold col. apply in_map_iff. eauto.
Qed.

Lemma cell_leb_refl (k : cell) : cell_leb k k = true.
Proof.
  unfold cell_leb. now rewrite (cmp_refl cell_compare cell_compare_ok).
Qed.

(** The first maximum of the grouped sums: its key is a group of the
    table, no group has a larger sum, and a group with the same sum has
    a key that is not smaller. *)
Lemma idxmax_groupby (d : DataFrame) (key : string) :
  (exists k, group_key d key k) ->
  exists top,
    idxmax (groupby_sum d key "Sales") = Some top
    /\ series_max_value (groupby_sum d key "Sales") = Some (group_total d key top)
    /\ group_key d key top
    /\ (forall k, group_key d key k ->
                  (group_total d key k <= group_total d key top)%Qc)
    /\ (forall k, group_key d key k ->
                  group_total d key k = group_total d key top ->
                  cell_leb top k = true).
Proof.
  intros [k0 G0]. rewrite groupby_sum_eq.
  set (f := fun k => (k, group_total d key k)).
  set (keys := sort_keys (unique (dropna (col d key)))).
  assert (S : StronglySorted key_le keys) by apply sort_keys_sorted.
  assert (K : forall k, In k keys <-> group_key d key k)
    by (intros k; apply In_group_keys).
  destruct (map f keys) as [|e t] eqn:M.
  { apply K in G0. destruct keys; [contradiction | discriminate]. }
  destruct (argmax_first e t) as (before & after & E & B & A).
  rewrite <- M in E.
  apply map_eq_app in E as (K1 & K2' & EK & E1 & E2).
  apply map_eq_cons in E2 as (top & K2 & EK2 & Etop & E2). subst K2'.
  assert (Ft : fst (argmax e t) = top) by now rewrite <- Etop.
  assert (St : snd (argmax e t) = group_total d key top) by now rewrite <- Etop.
  exists top. simpl. rewrite Ft, St. split; [reflexivity|]. split; [reflexivity|].
  assert (Cases : forall k, group_key d key k ->
            (group_total d key k < group_total d key top)%Qc
            \/ k = top
            \/ ((group_total d key k <= group_total d key top)%Qc
                /\ cell_leb top k = true)).
  { intros k G. apply K in G. rewrite EK in G.
    apply in_app_or in G as [I | [I | I]].
    - left. rewrite Forall_forall in B. rewrite <- St.
      apply (B (f k)). rewrite <- E1. now apply in_map.
    - right. left. now symmetry.
    - right. right. split.
      + rewrite Forall_forall in A. rewrite <- St.
        apply (A (f k)). rewrite <- E2. now apply in_map.
      + rewrite EK in S. apply sorted_after in S.
        rewrite Forall_forall in S. now apply S. }
  split; [|split].
  - apply K. rewrite EK. apply in_or_app. right. now left.
  - intros k G. destruct (Cases k G) as [L | [-> | [L _]]];
      [now apply Qclt_le_weak | apply Qcle_refl | exact L].
  - intros k G T. destruct (Cases k G) as [L | [-> | [_ L]]].
    + apply Qclt_not_eq in L. contradiction.
    + apply cell_leb_refl.
    + exact L.
Qed.

(** ** Top region *)

(** C3, as the code has it.  For a filtered table with Region and Sales
    columns and at least one non-null region, the top-region insight
    names a region whose summed sales are maximal among the regions of
    the table, with that sum; when several regions share the maximum,
    the one named is the smallest of them in the order of the keys
    (the grouping sorts its keys), not the first one met in the rows. *)
Theorem top_region_is_least_maximal_key `{Library} (d : DataFrame) :
  has_column d "Region" = true -> has_column d "Sales" = true ->
  (exists k, group_key d "Region" k) ->
  exists top,
    top_region d = Some top
    /\ region_insight d
       = ["🏆 Top region: **" +++ py_str top +++ "** with "
            +++ format_money (group_total d "Region" top) +++ " sales"]
    /\ group_key d "Region" top
    /\ (forall k, group_key d "Region" k ->
                  (group_total d "Region" k <= group_total d "Region" top)%Qc)
    /\ (forall k, group_key d "Region" k ->
                  group_total d "Region" k = group_total d "Region" top ->
                  cell_leb top k = true).
Proof.
  intros Hr Hs G.
  destruct (idxmax_groupby d "Region" G) as (top & I & Mx & Gt & Le & Tie).
  exists top. unfold region_insight, top_region, region_sales.
  rewrite Hr, Hs. simpl andb. cbv iota. rewrite I, Mx. auto.
Qed.

Lemma top_region_witness :
  has_column tied_regions "Region" = true
  /\ has_column tied_regions "Sales" = true
  /\ (exists k, group_key tied_regions "Region" k)
  /\ exists top,
       top_region tied_regions = Some top
       /\ @region_insight sample_library tied_regions
          = ["🏆 Top region: **" +++ @py_str sample_library top +++ "** with "
               +++ format_money (group_total tied_regions "Region" top) +++ " sales"]
       /\ group_key tied_regions "Region" top
       /\ (forall k, group_key tied_regions "Region" k ->
                     (group_total tied_regions "Region" k
                      <= group_total tied_regions "Region" top)%Qc)
       /\ (forall k, group_key tied_regions "Region" k ->
                     group_total tied_regions "Region" k
                     = group_total tied_regions "Region" top ->
                     cell_leb top k = true).
Proof.
  assert (G : exists k, group_key tied_regions "Region" k).
  { exists (Str "West"). split; [discriminate|].
    exists (row_of [("Region", Str "West"); ("Sales", num 100)]%string).
    split; [left; reflexivity | reflexivity]. }
  split; [reflexivity|]. split; [reflexivity|]. split; [exact G|].
  apply (@top_region_is_least_maximal_key sample_library tied_regions);
    [reflexivity | reflexivity | exact G].
Defined.

(** C3, as stated, fails when two regions tie: West is met first in the
    rows and East second, both sum to 100, and the insight names East,
    the smaller key, where the claim gives West. *)
Lemma top_region_not_first_encountered :
  top_region tied_regions = Some (Str "East")
  /\ @region_insight sample_library tied_regions
     = ["🏆 Top region: **East** with $100.00 sales"]%string
  /\ group_total tied_regions "Region" (Str "West")
     = group_total tied_regions "Region" (Str "East")
  /\ first_encountered_top tied_regions = Some (Str "West")
  /\ top_region tied_regions <> first_encountered_top tied_regions.
Proof.
  split; [vm_compute; reflexivity|].
  split; [vm_compute; reflexivity|].
  split; [apply Qc_is_canon; vm_compute; reflexivity|].
  split; [vm_compute; reflexivity|].
  vm_compute. discriminate.
Qed.

(** ** Monthly sums *)












(** ** The first and the last order date *)

Lemma ts_leb_date (a b : Timestamp) :
  ts_leb a b = true -> date_leb (ts_date a) (ts_date b) = true.
Proof.
  unfold ts_leb, ts_compare, date_leb.
  destruct (date_compare (ts_date a) (ts_date b)); auto.
Qed.

Lemma ts_leb_refl (a : Timestamp) : ts_leb a a = true.
Proof. unfold ts_leb. now rewrite ts_compare_refl. Qed.

Lemma ts_leb_total (a b : Timestamp) : ts_leb a b = false -> ts_leb b a = true.
Proof. apply (le_of_total ts_compare ts_compare_ok). Qed.

Lemma ts_leb_trans (a b c : Timestamp) :
  ts_leb a b = true -> ts_leb b c = true -> ts_leb a c = true.
Proof. apply (le_of_trans ts_compare ts_compare_ok). Qed.

Lemma date_leb_antisym (a b : date) :
  date_leb a b = true -> date_leb b a = true -> a = b.
Proof.
  unfold date_leb. rewrite (cmp_anti date_compare date_compare_ok a b).
  destruct (date_compare a b) eqn:E; simpl; try discriminate.
  intros _ _. now apply date_compare_eq.
Qed.

Lemma date_leb_refl (a : date) : date_leb a a = true.
Proof. unfold date_leb. now rewrite date_compare_refl. Qed.

Lemma fold_min_spec (l : list Timestamp) (t : Timestamp) :
  In (fold_left ts_min l t) (t :: l)
  /\ forall x, In x (t :: l) -> ts_leb (fold_left ts_min l t) x = true.
Proof.
  revert t. induction l as [|a l IH]; intros t.
  - split; [now left|]. intros x [<- | []]. apply ts_leb_refl.
  - cbn [fold_left]. destruct (IH (ts_min t a)) as [I Le]. split.
    + destruct I as [E | I]; [|now right; right].
      rewrite <- E. unfold ts_min. destruct (ts_leb t a); [now left | now right; left].
    + assert (M : ts_leb (fold_left ts_min l (ts_min t a)) (ts_min t a) = true)
        by (apply Le; now left).
      intros x [<- | [<- | Ix]].
      * apply (ts_leb_trans _ _ _ M). unfold ts_min.
        destruct (ts_leb t a) eqn:E; [apply ts_leb_refl | now apply ts_leb_total].
      * apply (ts_leb_trans _ _ _ M). unfold ts_min.
        destruct (ts_leb t a) eqn:E; [exact E | apply ts_leb_refl].
      * apply Le. now right.
Qed.

Lemma fold_max_spec (l : list Timestamp) (t : Timestamp) :
  In (fold_left ts_max l t) (t :: l)
  /\ forall x, In x (t :: l) -> ts_leb x (fold_left ts_max l t) = true.
Proof.
  revert t. induction l as [|a l IH]; intros t.
  - split; [now left|]. intros x [<- | []]. apply ts_leb_refl.
  - cbn [fold_left]. destruct (IH (ts_max t a)) as [I Le]. split.
    + destruct I as [E | I]; [|now right; right].
      rewrite <- E. unfold ts_max. destruct (ts_leb t a); [now right; left | now left].
    + assert (M : ts_leb (ts_max t a) (fold_left ts_max l (ts_max t a)) = true)
        by (apply Le; now left).
      intros x [<- | [<- | Ix]].
      * apply (fun X => ts_leb_trans _ _ _ X M). unfold ts_max.
        destruct (ts_leb t a) eqn:E; [exact E | apply ts_leb_refl].
      * apply (fun X => ts_leb_trans _ _ _ X M). unfold ts_max.
        destruct (ts_leb t a) eqn:E; [apply ts_leb_refl | now apply ts_leb_total].
      * apply Le. now right.
Qed.

Lemma In_timestamps (s : list cell) (t : Timestamp) :
  In t (timestamps s) <-> In (Dt t) s.
Proof.
  unfold timestamps. rewrite in_flat_map. split.
  - intros (c & I & E). destruct c; simpl in E; try contradiction.
    destruct E as [<- | []]. exact I.
  - intros I. exists (Dt t). split; [exact I | now left].
Qed.

Lemma series_min_spec (s : list cell) (mn : Timestamp) :
  series_min s = Some mn ->
  In (Dt mn) s /\ forall t, In (Dt t) s -> ts_leb mn t = true.
Proof.
  unfold series_min. destruct (timestamps s) as [|t0 l] eqn:E; [discriminate|].
  intros [= <-]. destruct (fold_min_spec l t0) as [I Le]. split.
  - apply In_timestamps. now rewrite E.
  - intros t It. apply Le. rewrite <- E. now apply In_timestamps.
Qed.

Lemma series_max_spec (s : list cell) (mx : Timestamp) :
  series_max s = Some mx ->
  In (Dt mx) s /\ forall t, In (Dt t) s -> ts_leb t mx = true.
Proof.
  unfold series_max. destruct (timestamps s) as [|t0 l] eqn:E; [discriminate|].
  intros [= <-]. destruct (fold_max_spec l t0) as [I Le]. split.
  - apply In_timestamps. now rewrite E.
  - intros t It. apply Le. rewrite <- E. now apply In_timestamps.
Qed.

(** ** The span of the monthly series *)











(** ** Trend *)


Lemma trend_insight_eq (d : DataFrame) :
  trend_insight d
  = if (has_column d "OrderDate" && has_column d "Sales")
       && Nat.ltb 1 (List.length (sales_over_time d))
    then [if Qc_ltb (iloc_neg (sales_over_time d) 2) (iloc_neg (sales_over_time d) 1)
          then increasing_msg else declining_msg]
    else [].
Proof.
  unfold trend_insight.
  destruct (has_column d "OrderDate" && has_column d "Sales") eqn:P;
    [|reflexivity].
  simpl andb. destruct (negb (empty (dropna_subset d "OrderDate"))) eqn:Em.
  - destruct (Nat.ltb 1 _); [|reflexivity]. now destruct (Qc_ltb _ _).
  - apply negb_false_iff in Em. unfold empty in Em.
    assert (R : rows (dropna_subset d "OrderDate") = []).
    { destruct (rows (dropna_subset d "OrderDate")); [reflexivity|].
      simpl in Em. apply andb_true_iff in P as [P _].
      unfold has_column in P. destruct (columns d); discriminate. }
    unfold sales_over_time, indexed. rewrite R. reflexivity.
Qed.

Section Insights.
Context `{L : Library}.



End Insights.






(** ** Worked examples *)

(** Three rows of one order: total sales 600, one order, average 600.00,
    no profit column. *)
Example one_order_kpis :
  let k := kpi_of (select (@normalize sample_library one_order)
                          (passes (@normalize sample_library one_order) sample_filters)) in
  kpi_total_orders k = 1%nat
  /\ displayed k = ["$600.00"; "1"; "$600.00"; "$0.00"]%string.
Proof. split; vm_compute; reflexivity. Qed.

Example format_money_examples :
  format_money (Q2Qc (inject_Z 1234567)) = "$1,234,567.00"%string
  /\ format_money (Q2Qc (- (12345 # 1000))) = "$-12.34"%string
  /\ format_money (Q2Qc (999995 # 1000)) = "$1,000.00"%string
  /\ format_int 1000 = "1,000"%string
  /\ format_int 0 = "0"%string
  /\ strftime (mkTs (mkDate 2026 1 5) 25380000000005) = "2026-01-05 07:03"%string.
Proof. repeat split; vm_compute; reflexivity. Qed.

(** On the sample table every row is dated in January or March: the
    monthly series has three months, February with a total of 0. *)
Example sample_monthly_series :
  map fst (sales_over_time (@normalize sample_library dated))
  = [24288; 24289; 24290]%Z
  /\ trend_insight (@normalize sample_library dated) = [increasing_msg].
Proof. split; vm_compute; reflexivity. Qed.

(** A date selection of a single picked bound cannot be compared with
    the dates: the run raises and the page shows the error. *)
Example partial_selection_raises :
  snd (@body sample_library dated (all_picked (SelTuple [jan15])) sample_env)
  = Err TypeError
  /\ existsb is_error
       (@app sample_library (Some (Ok dated)) (all_picked (SelTuple [jan15]))
          sample_env) = true.
Proof. split; vm_compute; reflexivity. Qed.

(** * Further properties of the script *)

(** ** Top category (lines 112-116) *)

(** X1. For a filtered table with Category and Sales columns and at
    least one non-null category, the top-category insight names a
    category whose summed sales are maximal among the categories of the
    table; of several categories sharing the maximum it names the
    smallest key.  Unlike the top-region insight it does not show the
    sum. *)
Theorem top_category_is_least_maximal_key `{Library} (d : DataFrame) :
  has_column d "Category" = true -> has_column d "Sales" = true ->
  (exists k, group_key d "Category" k) ->
  exists top,
    top_cat d = Some top
    /\ category_insight d = ["🔥 Top category: **" +++ py_str top +++ "**"]
    /\ group_key d "Category" top
    /\ (forall k, group_key d "Category" k ->
                  (group_total d "Category" k <= group_total d "Category" top)%Qc)
    /\ (forall k, group_key d "Category" k ->
                  group_total d "Category" k = group_total d "Category" top ->
                  cell_leb top k = true).
Proof.
  intros Hc Hs G.
  destruct (idxmax_groupby d "Category" G) as (top & I & Mx & Gt & Le & Tie).
  exists top. unfold category_insight, top_cat, cat_sales_s.
  rewrite Hc, Hs. simpl andb. cbv iota. rewrite I. auto.
Qed.

Lemma top_category_witness :
  has_column (@normalize sample_library dated) "Category" = true
  /\ has_column (@normalize sample_library dated) "Sales" = true
  /\ (exists k, group_key (@normalize sample_library dated) "Category" k)
  /\ exists top,
       top_cat (@normalize sample_library dated) = Some top
       /\ @category_insight sample_library (@normalize sample_library dated)
          = ["🔥 Top category: **" +++ @py_str sample_library top +++ "**"]
       /\ group_key (@normalize sample_library dated) "Category" top
       /\ (forall k, group_key (@normalize sample_library dated) "Category" k ->
                     (group_total (@normalize sample_library dated) "Category" k
                      <= group_total (@normalize sample_library dated) "Category" top)%Qc)
       /\ (forall k, group_key (@normalize sample_library dated) "Category" k ->
                     group_total (@normalize sample_library dated) "Category" k
                     = group_total (@normalize sample_library dated) "Category" top ->
                     cell_leb top k = true).
Proof.
  assert (G : exists k, group_key (@normalize sample_library dated) "Category" k).
  { exists (Str "A"). split; [discriminate|].
    eexists. split; [left; reflexivity | reflexivity]. }
  split; [reflexivity|]. split; [reflexivity|]. split; [exact G|].
  apply (@top_category_is_least_maximal_key sample_library
           (@normalize sample_library dated)); [reflexivity | reflexivity | exact G].
Defined.

(** ** Region options (lines 80-87) *)

Lemma In_reg_options (d : DataFrame) (v : cell) :
  In v (reg_options d) <->
  v <> NaN /\ exists r, In r (rows d) /\ r "Region"%string = v.
Proof.
  unfold reg_options, col. rewrite In_unique, In_dropna, in_map_iff.
  split.
  - intros [(r & E & I) N]. eauto.
  - intros [N (r & I & E)]. eauto.
Qed.

(** X2. In a run that returns on a table with a Region column, the
    region multi-select is shown once, and its options are, without
    repetition, the non-null Region values of the rows that pass both
    the date filter and the category filter: a region that only occurs
    with categories that are not ticked is not offered. *)
Theorem region_options_offered `{Library} (raw : DataFrame)
  (fs : FilterState) (env : Env) (w : list ui) (der : Derived) :
  body raw fs env = (w, Ok der) ->
  has_column raw "Region" = true ->
  exists options,
    offered "📍 Region" w = [options]
    /\ NoDup options
    /\ forall v,
         In v options <->
         v <> NaN
         /\ exists r, In r (rows (normalize raw))
                      /\ passes_date (normalize raw) fs r = true
                      /\ passes_category (normalize raw) fs r = true
                      /\ r "Region"%string = v.
Proof.
  intros B Hc. destruct (body_inv _ _ _ _ _ B) as (_ & _ & wd & -> & F & _).
  exists (reg_options (category_filtered (normalize raw) fs)).
  split; [|split; [apply NoDup_unique|]].
  - rewrite offered_app, (offered_none _ (loaded raw)) by reflexivity.
    rewrite offered_cons_plain
      by (unfold prep_status; destruct (has_column raw "OrderDate");
          [destruct (forallb _ _)|]; reflexivity).
    rewrite offered_cons_plain by reflexivity.
    rewrite !offered_app.
    rewrite (offered_none _ wd) by now apply date_input_no_multiselect.
    rewrite (offered_none _ (after_filters _ _)).
    + unfold select_events. rewrite (normalize_has raw "Region"), Hc.
      destruct (has_column (normalize raw) "Category"); reflexivity.
    + apply (after_filters_forall _ later_no_multiselect).
      now apply sales_over_time_chart_forall.
  - intros v. rewrite In_reg_options.
    unfold category_filtered, date_filtered. simpl rows. split.
    + intros (N & r & Ir & E). apply filter_In in Ir as [Ir Pc].
      apply filter_In in Ir as [Ir Pd]. split; [exact N|]. exists r. auto.
    + intros (N & r & Ir & Pd & Pc & E). split; [exact N|].
      exists r. split; [|exact E]. apply filter_In. split; [|exact Pc].
      apply filter_In. auto.
Qed.

Lemma region_options_witness :
  sample_run = (fst sample_run, Ok sample_derived)
  /\ has_column dated "Region" = true
  /\ exists options,
       offered "📍 Region" (fst sample_run) = [options]
       /\ NoDup options
       /\ forall v,
            In v options <->
            v <> NaN
            /\ exists r, In r (rows (@normalize sample_library dated))
                         /\ passes_date (@normalize sample_library dated)
                              sample_filters r = true
                         /\ passes_category (@normalize sample_library dated)
                              sample_filters r = true
                         /\ r "Region"%string = v.
Proof.
  split; [vm_compute; reflexivity|]. split; [reflexivity|].
  apply (@region_options_offered sample_library dated sample_filters
           sample_env (fst sample_run) sample_derived).
  - vm_compute. reflexivity.
  - reflexivity.
Defined.

(** ** Order count (lines 92-93) *)

Lemma nunique_le (s : list cell) : (nunique s <= List.length s)%nat.
Proof.
  unfold nunique. apply NoDup_incl_length; [apply NoDup_unique|].
  intros v I. now apply In_unique, In_dropna in I.
Qed.

Lemma nunique_zero (s : list cell) :
  nunique s = 0%nat <-> forall v, In v s -> v = NaN.
Proof.
  unfold nunique. split.
  - intros Z v I. destruct v; try reflexivity; exfalso;
      apply length_zero_iff_nil in Z;
      match goal with
      | I : In ?c s |- _ =>
          assert (J : In c (unique (dropna s)))
            by (apply In_unique, In_dropna; split; [exact I | discriminate])
      end; rewrite Z in J; contradiction.
  - intros A. apply length_zero_iff_nil.
    destruct (unique (dropna s)) as [|v t] eqn:E; [reflexivity|].
    assert (J : In v (unique (dropna s))) by (rewrite E; now left).
    apply In_unique, In_dropna in J as [J N]. now apply A in J.
Qed.

(** X3. The order count never exceeds the number of filtered rows.  It
    is 0 exactly when the table has an OrderID column and every filtered
    row has a null OrderID, or has no such column and no filtered row;
    the average order value is then 0 whatever the total sales. *)
Theorem order_count_zero (d : DataFrame) :
  (total_orders d <= len d)%nat
  /\ (total_orders d = 0%nat <->
      if has_column d "OrderID"
      then forall r, In r (rows d) -> r "OrderID"%string = NaN
      else rows d = [])
  /\ (total_orders d = 0%nat -> avg_order_value d = Ok 0%Qc).
Proof.
  split; [|split].
  - unfold total_orders. destruct (has_column d "OrderID"); [|reflexivity].
    rewrite <- (len_col d "OrderID"). apply nunique_le.
  - unfold total_orders. destruct (has_column d "OrderID").
    + rewrite nunique_zero. unfold col. split.
      * intros A r I. apply A.
        now apply (in_map (fun r0 : row => r0 "OrderID"%string)).
      * intros A v I. apply in_map_iff in I as (r & <- & I). now apply A.
    + unfold len. apply length_zero_iff_nil.
  - unfold avg_order_value. now intros ->.
Qed.

(** ** Chart sections (lines 138-214) *)

Lemma dropna_nil (s : list cell) : dropna s = [] <-> notna_any s = false.
Proof.
  unfold dropna, notna_any. induction s as [|c t IH]; simpl; [tauto|].
  destruct (notna c); simpl; [split; discriminate | exact IH].
Qed.

Lemma unique_nil (s : list cell) : unique s = [] <-> s = [].
Proof. destruct s; simpl; split; intros; congruence. Qed.

Lemma sort_keys_nil (s : list cell) : sort_keys s = [] <-> s = [].
Proof.
  split; intros E.
  - apply Permutation_nil. rewrite <- E. apply sort_keys_perm.
  - now subst.
Qed.

Lemma groupby_sum_nil (d : DataFrame) (key : string) :
  groupby_sum d key "Sales" = [] <-> notna_any (col d key) = false.
Proof.
  rewrite groupby_sum_eq, <- dropna_nil, <- unique_nil, <- sort_keys_nil.
  destruct (sort_keys _); simpl; split; intros; congruence.
Qed.

Lemma grouped_chart_events (d : DataFrame) (key title : string) (fig : chart)
  (nodata : string) :
  fst (grouped_chart d key title fig nodata)
  = chart_or_warning (has_column d key && has_column d "Sales")
      (notna_any (col d key)) title (StPlotlyChart fig) nodata.
Proof.
  unfold grouped_chart, chart_or_warning.
  destruct (has_column d key && has_column d "Sales"); [|reflexivity].
  rewrite bind_emit. destruct (notna_any (col d key)) eqn:N.
  - destruct (groupby_sum d key "Sales") eqn:G; [|reflexivity].
    apply groupby_sum_nil in G. congruence.
  - apply groupby_sum_nil in N. now rewrite N.
Qed.

Lemma empty_dropna_subset (d : DataFrame) (c : string) :
  has_column d c = true ->
  empty (dropna_subset d c) = negb (notna_any (col d c)).
Proof.
  intros Hc. unfold empty, dropna_subset, select, notna_any, col. simpl.
  assert (Cn : columns d <> []).
  { unfold has_column in Hc. destruct (columns d); [discriminate | discriminate]. }
  induction (rows d) as [|r t IH]; simpl.
  - reflexivity.
  - destruct (notna (r c)); simpl; [|exact IH].
    destruct (columns d); [contradiction | reflexivity].
Qed.

(** X4. Each chart section shows nothing when a column it needs is
    missing.  Otherwise it opens its expander and draws its figure when
    some filtered row has a non-null value in its key column (OrderDate,
    Product, Category, Region), and shows its warning when no filtered
    row has one.  The correlation heatmap is drawn exactly when the
    table has at least two numeric columns; its warning is never
    shown. *)
Theorem chart_sections (d : DataFrame) :
  fst (graphs d)
  = StSubheader "📊 Data Visualizations"
    :: chart_or_warning (has_column d "OrderDate" && has_column d "Sales")
         (notna_any (col d "OrderDate")) "📅 Sales Over Time"
         (StPlotlyChart DailySalesTrend) "No valid data to plot sales over time."
    ++ chart_or_warning (has_column d "Product" && has_column d "Sales")
         (notna_any (col d "Product")) "🏆 Top 10 Products by Sales"
         (StPlotlyChart Top10Products) "No product sales data to display."
    ++ chart_or_warning (has_column d "Category" && has_column d "Sales")
         (notna_any (col d "Category")) "🥧 Sales by Category"
         (StPlotlyChart SalesByCategory) "No category sales data."
    ++ chart_or_warning (has_column d "Region" && has_column d "Sales")
         (notna_any (col d "Region")) "📍 Sales by Region"
         (StPlotlyChart SalesByRegion) "No region sales data."
    ++ (if Nat.ltb 1 (List.length (numeric_columns d))
        then [StExpander "🔗 Correlation Heatmap"; StPyplot CorrelationHeatmap]
        else []).
Proof.
  rewrite graphs_eq. simpl fst. rewrite !grouped_chart_events.
  f_equal. f_equal; [|f_equal; f_equal; f_equal].
  - unfold sales_over_time_chart, chart_or_warning.
    destruct (has_column d "OrderDate" && has_column d "Sales") eqn:P;
      [|reflexivity].
    apply andb_true_iff in P as [P _].
    rewrite bind_emit, (empty_dropna_subset d "OrderDate" P), negb_involutive.
    now destruct (notna_any _).
  - unfold correlation_heatmap.
    destruct (Nat.ltb 1 (List.length (numeric_columns d))) eqn:N; [|reflexivity].
    apply Nat.ltb_lt in N. rewrite bind_emit.
    destruct (Nat.eqb_spec (List.length (numeric_columns d)) 0); [lia|].
    reflexivity.
Qed.

(** ** A filtered table without rows *)

Lemma empty_table (d : DataFrame) :
  rows d = [] ->
  kpi_of d = zero_kpis
  /\ sales_over_time d = []
  /\ forall key, groupby_sum d key "Sales" = [] /\ notna_any (col d key) = false.
Proof.
  intros R. split; [|split].
  - unfold kpi_of, zero_kpis, avg_value, avg_order_value, total_sales,
      total_orders, total_profit, nunique, len, col. rewrite R. simpl.
    destruct (has_column d "Sales"), (has_column d "OrderID"),
      (has_column d "Profit"); reflexivity.
  - unfold sales_over_time, indexed, dropna_subset, select. simpl rows.
    rewrite R. reflexivity.
  - intros key. assert (N : notna_any (col d key) = false)
      by (unfold col; now rewrite R).
    split; [now apply groupby_sum_nil | exact N].
Qed.

Lemma chart_or_warning_no_figure (present : bool) (title : string) (fig : ui)
  (nodata : string) :
  forallb (fun e => negb (is_plotly e))
          (chart_or_warning present false title fig nodata) = true.
Proof. now destruct present. Qed.

(** X5. When the date selection can be compared with the dates (it is
    a single day or a pair of days, or the table has no order date) and
    no row of the prepared table passes the filters, the run returns:
    the filtered table is empty, the four KPIs are 0 and are displayed
    as $0.00, 0, $0.00 and $0.00, the insight list is empty, and the
    page draws no Plotly figure (each chart section whose columns exist
    shows its warning instead). *)
Theorem no_row_passes `{Library} (raw : DataFrame) (fs : FilterState)
  (env : Env) :
  comparable (normalize raw) fs = true ->
  (forall r, In r (rows (normalize raw)) -> passes (normalize raw) fs r = false) ->
  exists w der,
    body raw fs env = (w, Ok der)
    /\ rows (filtered der) = []
    /\ summary der = zero_kpis
    /\ incl [StMetric "Total Sales" "$0.00"; StMetric "Total Orders" "0";
             StMetric "Avg Order Value" "$0.00"; StMetric "Total Profit" "$0.00"] w
    /\ insight_list der = []
    /\ existsb is_plotly w = false.
Proof.
  intros C NP. destruct (body_returns raw fs env C) as (wd & B & F & _).
  eexists _, _. split; [exact B|].
  simpl filtered. simpl summary. simpl insight_list.
  set (d := select (normalize raw) (passes (normalize raw) fs)).
  assert (R : rows d = []).
  { unfold d, select. simpl.
    induction (rows (normalize raw)) as [|r t IH]; [reflexivity|].
    simpl. rewrite (NP r (or_introl eq_refl)). apply IH.
    intros x I. apply NP. now right. }
  destruct (empty_table d R) as (K & S & G).
  assert (Ins : insights d = []).
  { unfold insights, region_insight, category_insight, top_region, top_cat,
      region_sales, cat_sales_s.
    rewrite (proj1 (G "Region"%string)), (proj1 (G "Category"%string)).
    rewrite trend_insight_eq, S.
    destruct (has_column d "Region" && has_column d "Sales"),
      (has_column d "Category" && has_column d "Sales"),
      (has_column d "OrderDate" && has_column d "Sales"); reflexivity. }
  split; [exact R|]. split; [exact K|]. split; [|split; [exact Ins|]].
  - intros e I. apply in_after_filters. unfold after_filters.
    apply in_or_app. left. rewrite kpis_eq, K. right. exact I.
  - apply existsb_none.
    rewrite forallb_app, loaded_forall by reflexivity.
    assert (Ps : negb (is_plotly (prep_status raw)) = true).
    { unfold prep_status. destruct (has_column raw "OrderDate");
        [destruct (forallb _ _)|]; reflexivity. }
    cbn [forallb]. rewrite Ps. cbn [negb is_plotly andb].
    rewrite !forallb_app, select_events_forall by reflexivity.
    assert (Fd : forallb (fun e => negb (is_plotly e)) wd = true).
    { apply forallb_Forall. eapply Forall_impl; [|exact F].
      intros e. now destruct e. }
    rewrite Fd. cbn [andb].
    unfold after_filters. rewrite kpis_eq, show_insights_eq, Ins.
    rewrite !forallb_app. cbn [fst]. rewrite chart_sections.
    rewrite (proj2 (G "OrderDate"%string)), (proj2 (G "Product"%string)),
      (proj2 (G "Category"%string)), (proj2 (G "Region"%string)).
    cbn [forallb]. rewrite !forallb_app, !chart_or_warning_no_figure.
    unfold downloads. rewrite !bind_emit.
    destruct (Nat.ltb 1 (List.length (numeric_columns d))),
      (generate_report env), (show_raw env); reflexivity.
Qed.

Lemma no_row_passes_witness :
  comparable (@normalize sample_library dated) no_region = true
  /\ (forall r, In r (rows (@normalize sample_library dated)) ->
                passes (@normalize sample_library dated) no_region r = false)
  /\ exists w der,
       @body sample_library dated no_region sample_env = (w, Ok der)
       /\ rows (filtered der) = []
       /\ summary der = zero_kpis
       /\ incl [StMetric "Total Sales" "$0.00"; StMetric "Total Orders" "0";
                StMetric "Avg Order Value" "$0.00"; StMetric "Total Profit" "$0.00"] w
       /\ insight_list der = []
       /\ existsb is_plotly w = false.
Proof.
  assert (NP : forall r, In r (rows (@normalize sample_library dated)) ->
                 passes (@normalize sample_library dated) no_region r = false).
  { intros r I.
    assert (A : forallb (fun r => negb (passes (@normalize sample_library dated)
                                          no_region r))
                        (rows (@normalize sample_library dated)) = true)
      by (vm_compute; reflexivity).
    rewrite forallb_forall in A. apply negb_true_iff. now apply A. }
  split; [vm_compute; reflexivity|]. split; [exact NP|].
  apply (@no_row_passes sample_library dated no_region sample_env).
  - vm_compute. reflexivity.
  - exact NP.
Defined.

(** ** The date input (lines 52-60) *)

(** With a date to show, the date filter shows one input, whose value
    and bounds are the first and the last day of the column; a half-picked
    range then makes the comparison raise. *)
Lemma date_filter_active (df : DataFrame) (fs : FilterState) :
  date_active df = true -> dates_only (col df "OrderDate") = true ->
  exists mn mx,
    series_min (col df "OrderDate") = Some mn
    /\ series_max (col df "OrderDate") = Some mx
    /\ fst (date_filter df fs) =
         [StDateInput "📅 Date Range" (ts_date mn, ts_date mx) (ts_date mn) (ts_date mx)]
    /\ (date_range (date_sel fs) = None -> snd (date_filter df fs) = Err TypeError).
Proof.
  intros A D. unfold date_filter. fold (date_active df). rewrite A.
  assert (N : timestamps (col df "OrderDate") <> []).
  { apply timestamps_nonempty; auto.
    unfold date_active in A. now apply andb_true_iff in A. }
  destruct (series_min_some _ N) as [mn Emn].
  destruct (series_max_some _ N) as [mx Emx].
  exists mn, mx. rewrite Emn, Emx, bind_emit.
  split; [reflexivity|]. split; [reflexivity|].
  destruct (date_sel fs) as [[|a [|b [|c l]]] | d]; simpl;
    (split; [reflexivity | intros; reflexivity || discriminate]).
Qed.

Section RunEvents.
Context `{L : Library}.

(** What a run shows, whether it returns or raises: the events of the
    date filter come right after the sidebar header, and nothing else
    is a date input. *)
Lemma body_events (raw : DataFrame) (fs : FilterState) (env : Env) :
  exists rest,
    fst (body raw fs env) =
      loaded raw ++ prep_status raw :: StSidebarHeader "FilterWhere"
        :: fst (date_filter (normalize raw) fs) ++ rest
    /\ forallb (fun e => negb (is_date_input e)) rest = true
    /\ forall e, snd (date_filter (normalize raw) fs) = Err e ->
                 rest = [] /\ snd (body raw fs env) = Err e.
Proof.
  destruct (date_filter (normalize raw) fs) as [wd [d|e]] eqn:E.
  - assert (F : exists sel d2,
               filters (normalize raw) fs
               = (StSidebarHeader "FilterWhere" :: wd ++ sel, Ok d2)
               /\ forallb is_multiselect sel = true).
    { unfold filters.
      rewrite bind_emit, (bind_ok _ _ _ _ E), category_filter_spec,
        (bind_ok _ _ _ _ eq_refl), region_filter_spec.
      cbn [fst snd]. eexists _, _. split; [reflexivity|].
      destruct (has_column d "Category"), (has_column _ "Region"); reflexivity. }
    destruct F as (sel & d2 & F & Ms).
    rewrite (body_run _ _ _ _ _ F). cbn [fst snd].
    exists (sel ++ after_filters d2 env). split; [|split].
    + now rewrite <- app_comm_cons, <- app_assoc.
    + rewrite forallb_app. apply andb_true_iff. split.
      * eapply forallb_impl; [|exact Ms]. intros x. now destruct x.
      * apply after_filters_forall; [intros x; now destruct x|].
        now apply sales_over_time_chart_forall.
    + discriminate.
  - assert (F : filters (normalize raw) fs
                = (StSidebarHeader "FilterWhere" :: wd, Err e)).
    { unfold filters. now rewrite bind_emit, (bind_err _ _ _ _ E). }
    rewrite (body_fail _ _ _ _ _ F). cbn [fst snd].
    exists []. rewrite app_nil_r. split; [reflexivity|]. split; [reflexivity|].
    intros e' [= <-]. auto.
Qed.

Lemma prep_status_active (raw : DataFrame) :
  date_active (normalize raw) = true ->
  prep_status raw = StInfo "📅 'OrderDate' parsed successfully.".
Proof.
  unfold date_active, prep_status.
  rewrite normalize_has, normalize_OrderDate.
  destruct (has_column raw "OrderDate"); [|discriminate]. simpl.
  induction (to_datetime (col raw "OrderDate")) as [|[t|] l IH]; simpl;
    [discriminate | reflexivity | exact IH].
Qed.
End RunEvents.

Lemma filter_none {A} (P : A -> bool) (l : list A) :
  forallb (fun x => negb (P x)) l = true -> filter P l = [].
Proof.
  induction l as [|x t IH]; simpl; [reflexivity|].
  intros F. apply andb_true_iff in F as [Nx Ft].
  apply negb_true_iff in Nx. now rewrite Nx, IH.
Qed.

(** X6. When the prepared table has at least one order date, every run,
    returning or not, shows exactly one date input; its default value is
    the pair (first day, last day) of the order dates and these are also
    its bounds; both are days of rows of the table, the first is not
    after the last, and selecting this default range keeps exactly the
    rows whose order date is not null. *)
Theorem date_input_bounds `{Library} (raw : DataFrame) (fs : FilterState)
  (env : Env) :
  date_active (normalize raw) = true ->
  exists lo hi,
    filter is_date_input (fst (body raw fs env))
    = [StDateInput "📅 Date Range" (lo, hi) lo hi]
    /\ (exists r t, In r (rows (normalize raw))
                    /\ r "OrderDate"%string = Dt t /\ ts_date t = lo)
    /\ (exists r t, In r (rows (normalize raw))
                    /\ r "OrderDate"%string = Dt t /\ ts_date t = hi)
    /\ date_leb lo hi = true
    /\ forall r, In r (rows (normalize raw)) ->
                 in_range (SelTuple [lo; hi]) (r "OrderDate"%string)
                 = notna (r "OrderDate"%string).
Proof.
  intros A. pose proof (normalize_dates raw A) as D.
  destruct (date_filter_active _ fs A D) as (mn & mx & Emn & Emx & Ev & _).
  destruct (body_events raw fs env) as (rest & W & R & _).
  destruct (series_min_spec _ _ Emn) as [Imn Lmn].
  destruct (series_max_spec _ _ Emx) as [Imx Lmx].
  exists (ts_date mn), (ts_date mx). split; [|split; [|split; [|split]]].
  - rewrite W, Ev, filter_app, (filter_none _ (loaded raw)) by reflexivity.
    rewrite (prep_status_active raw A). simpl.
    now rewrite (filter_none _ rest R).
  - unfold col in Imn. apply in_map_iff in Imn as (r & E & I). exists r, mn. auto.
  - unfold col in Imx. apply in_map_iff in Imx as (r & E & I). exists r, mx. auto.
  - apply ts_leb_date. now apply Lmn.
  - intros r I.
    assert (Ic : In (r "OrderDate"%string) (col (normalize raw) "OrderDate"))
      by (unfold col; now apply (in_map (fun r0 : row => r0 "OrderDate"%string))).
    unfold dates_only in D. rewrite forallb_forall in D. specialize (D _ Ic).
    destruct (r "OrderDate"%string) as [| | |t] eqn:C; try discriminate;
      [reflexivity|].
    unfold in_range. cbn [date_range notna isna negb].
    rewrite (ts_leb_date _ _ (Lmn t Ic)), (ts_leb_date _ _ (Lmx t Ic)). reflexivity.
Qed.

Lemma date_input_bounds_witness :
  date_active (@normalize sample_library dated) = true
  /\ exists lo hi,
       filter is_date_input (fst sample_run)
       = [StDateInput "📅 Date Range" (lo, hi) lo hi]
       /\ (exists r t, In r (rows (@normalize sample_library dated))
                       /\ r "OrderDate"%string = Dt t /\ ts_date t = lo)
       /\ (exists r t, In r (rows (@normalize sample_library dated))
                       /\ r "OrderDate"%string = Dt t /\ ts_date t = hi)
       /\ date_leb lo hi = true
       /\ forall r, In r (rows (@normalize sample_library dated)) ->
                    in_range (SelTuple [lo; hi]) (r "OrderDate"%string)
                    = notna (r "OrderDate"%string).
Proof.
  split; [vm_compute; reflexivity|].
  apply (@date_input_bounds sample_library dated sample_filters sample_env).
  vm_compute. reflexivity.
Defined.

(** ** The error display (lines 20-23 and 258-262) *)

Lemma comparable_false (df : DataFrame) (fs : FilterState) :
  comparable df fs = false <->
  date_active df = true /\ date_range (date_sel fs) = None.
Proof.
  unfold comparable. destruct (date_active df), (date_range (date_sel fs));
    simpl; intuition discriminate.
Qed.

Lemma page_of_run `{Library} (raw : DataFrame) (fs : FilterState) (env : Env) :
  app (Some (Ok raw)) fs env =
  page_head
  ++ match body raw fs env with
     | (shown, Ok _) => shown
     | (shown, Err e) =>
         shown ++ [StError ("❌ Error: " +++ str_exn e); StCode (str_exn e)]
     end
  ++ page_foot.
Proof.
  unfold app, lift, page_head, page_foot.
  rewrite (bind_ok _ _ _ _ eq_refl). cbn [fst snd app].
  now destruct (body raw fs env) as [w [der|e]].
Qed.

Lemma run_shows_no_error `{Library} (raw : DataFrame) (fs : FilterState)
  (env : Env) :
  forallb (fun e => negb (is_error e)) (fst (body raw fs env)) = true.
Proof.
  destruct (comparable (normalize raw) fs) eqn:C.
  - destruct (body_returns raw fs env C) as (wd & -> & F & _). cbn [fst].
    rewrite forallb_app, loaded_forall by reflexivity.
    assert (Ps : negb (is_error (prep_status raw)) = true).
    { unfold prep_status. destruct (has_column raw "OrderDate");
        [destruct (forallb _ _)|]; reflexivity. }
    cbn [forallb]. rewrite Ps. cbn [negb is_error andb].
    rewrite !forallb_app, select_events_forall by reflexivity.
    assert (Fd : forallb (fun e => negb (is_error e)) wd = true).
    { apply forallb_Forall. eapply Forall_impl; [|exact F].
      intros e. now destruct e. }
    rewrite Fd. cbn [andb].
    apply (after_filters_forall _ later_no_error).
    now apply sales_over_time_chart_forall.
  - destruct (body_events raw fs env) as (rest & -> & _ & Er).
    apply comparable_false in C as [A R].
    destruct (date_filter_active _ fs A (normalize_dates raw A))
      as (mn & mx & _ & _ & Ev & Ee).
    destruct (Er _ (Ee R)) as [-> _]. rewrite Ev.
    rewrite forallb_app, loaded_forall by reflexivity.
    rewrite (prep_status_active raw A). reflexivity.
Qed.

(** X7. The page shows an error (the error line and the code block)
    exactly in these cases: the upload cannot be read, or the prepared
    table has at least one order date and the date selection is a tuple
    that does not hold two dates.  Without an upload it shows none. *)
Theorem error_shown_iff `{Library} (raw : DataFrame) (fs : FilterState)
  (env : Env) :
  (existsb is_error (app (Some (Ok raw)) fs env) = true <->
   date_active (normalize raw) = true /\ date_range (date_sel fs) = None)
  /\ (forall e, existsb is_error (app (Some (Err e)) fs env) = true)
  /\ existsb is_error (app None fs env) = false.
Proof.
  split; [|split; [intros e; reflexivity | reflexivity]].
  rewrite <- comparable_false, page_of_run.
  pose proof (run_shows_no_error raw fs env) as N.
  destruct (comparable (normalize raw) fs) eqn:C.
  - destruct (body_returns raw fs env C) as (wd & B & _).
    rewrite B in N |- *. cbn [fst] in N. cbv beta iota.
    rewrite (existsb_app _ page_head), (existsb_app _ _ page_foot),
      (existsb_none _ _ N).
    split; discriminate.
  - destruct (body_raises raw fs env C) as (w & e & B). rewrite B.
    cbv beta iota.
    rewrite (existsb_app _ page_head), (existsb_app _ _ page_foot),
      (existsb_app _ w).
    split; [reflexivity|]. intros _.
    cbn [existsb is_error orb]. now rewrite orb_true_r.
Qed.

(** X8. When the prepared table has at least one order date and the
    selection is a tuple that does not hold two dates (a range of which
    one end is picked), the run stops at the date comparison: the page
    shows the load messages, the note that the dates were parsed, the
    sidebar header and the date input, then the text of a TypeError as
    error line and code block, then the footer, and nothing else: no
    category or region selector, no KPI, no chart, no download. *)
Theorem partial_selection_stops_run `{Library} (raw : DataFrame)
  (fs : FilterState) (env : Env) :
  date_active (normalize raw) = true ->
  date_range (date_sel fs) = None ->
  exists lo hi,
    app (Some (Ok raw)) fs env =
    page_head ++ loaded raw
    ++ [StInfo "📅 'OrderDate' parsed successfully.";
        StSidebarHeader "FilterWhere";
        StDateInput "📅 Date Range" (lo, hi) lo hi;
        StError ("❌ Error: " +++ str_exn TypeError);
        StCode (str_exn TypeError)]
    ++ page_foot.
Proof.
  intros A R.
  destruct (date_filter_active _ fs A (normalize_dates raw A))
    as (mn & mx & _ & _ & Ev & Ee).
  destruct (body_events raw fs env) as (rest & W & _ & Er).
  destruct (Er _ (Ee R)) as [-> Eb].
  exists (ts_date mn), (ts_date mx). rewrite page_of_run.
  destruct (body raw fs env) as [w r]. cbn [fst snd] in W, Eb. subst w r.
  cbv beta iota. rewrite Ev, (prep_status_active raw A), app_nil_r.
  reflexivity.
Qed.

Lemma partial_selection_witness :
  date_active (@normalize sample_library dated) = true
  /\ date_range (date_sel half_picked) = None
  /\ exists lo hi,
       @app sample_library (Some (Ok dated)) half_picked sample_env =
       page_head ++ loaded dated
       ++ [StInfo "📅 'OrderDate' parsed successfully.";
           StSidebarHeader "FilterWhere";
           StDateInput "📅 Date Range" (lo, hi) lo hi;
           StError ("❌ Error: " +++ @str_exn sample_library TypeError);
           StCode (@str_exn sample_library TypeError)]
       ++ page_foot.
Proof.
  split; [vm_compute; reflexivity|]. split; [reflexivity|].
  apply (@partial_selection_stops_run sample_library dated half_picked sample_env).
  - vm_compute. reflexivity.
  - reflexivity.
Defined.

(** ** A single day (lines 61-66) *)

(** X9. When the prepared table has at least one order date and the
    date input gives a single day instead of a range, the run returns,
    and the filtered rows are exactly the rows dated that day (whatever
    the time of day) that pass the category and the region filter. *)
Theorem single_day_selection `{Library} (raw : DataFrame) (fs : FilterState)
  (env : Env) (day : date) :
  date_sel fs = SelDate day ->
  date_active (normalize raw) = true ->
  exists w der,
    body raw fs env = (w, Ok der)
    /\ forall r,
         In r (rows (filtered der)) <->
         In r (rows (normalize raw))
         /\ (exists t, r "OrderDate"%string = Dt t /\ ts_date t = day)
         /\ passes_category (normalize raw) fs r = true
         /\ passes_region (normalize raw) fs r = true.
Proof.
  intros S A.
  assert (C : comparable (normalize raw) fs = true)
    by (unfold comparable; rewrite S; apply orb_true_r).
  destruct (body_returns raw fs env C) as (wd & B & _).
  eexists _, _. split; [exact B|]. intros r. cbn [filtered].
  rewrite rows_select, filter_In. unfold passes, passes_date.
  rewrite A, S, !andb_true_iff.
  assert (D : in_range (SelDate day) (r "OrderDate"%string) = true <->
              exists t, r "OrderDate"%string = Dt t /\ ts_date t = day).
  { unfold in_range. cbn [date_range]. split.
    - destruct (r "OrderDate"%string) as [| | |t]; try discriminate.
      intros P. apply andb_true_iff in P as [P1 P2].
      exists t. split; [reflexivity|]. now apply date_leb_antisym.
    - intros (t & -> & <-). now rewrite date_leb_refl. }
  rewrite D. tauto.
Qed.

Lemma single_day_witness :
  date_sel one_day = SelDate mar02
  /\ date_active (@normalize sample_library dated) = true
  /\ exists w der,
       @body sample_library dated one_day sample_env = (w, Ok der)
       /\ forall r,
            In r (rows (filtered der)) <->
            In r (rows (@normalize sample_library dated))
            /\ (exists t, r "OrderDate"%string = Dt t /\ ts_date t = mar02)
            /\ passes_category (@normalize sample_library dated) one_day r = true
            /\ passes_region (@normalize sample_library dated) one_day r = true.
Proof.
  split; [reflexivity|]. split; [vm_compute; reflexivity|].
  apply (@single_day_selection sample_library dated one_day sample_env mar02).
  - reflexivity.
  - vm_compute. reflexivity.
Defined.

(** ** The heat map (lines 42-45 and 204-214) *)

Lemma set_dtype_In (c : string) (ty : dtype) (cols : list (string * dtype)) :
  In (c, ty) (set_dtype c ty cols).
Proof.
  induction cols as [|[c' ty'] rest IH]; simpl; [now left|].
  destruct (String.eqb c' c) eqn:E.
  - apply String.eqb_eq in E. subst. now left.
  - now right.
Qed.

Lemma set_dtype_keeps (c : string) (ty : dtype) (cols : list (string * dtype))
  (c' : string) (ty' : dtype) :
  c' <> c -> In (c', ty') cols -> In (c', ty') (set_dtype c ty cols).
Proof.
  intros N. induction cols as [|[c0 ty0] rest IH]; simpl; [tauto|].
  intros [E | I].
  - injection E as -> ->. destruct (String.eqb c' c) eqn:Q.
    + apply String.eqb_eq in Q. contradiction.
    + now left.
  - destruct (String.eqb c0 c); right; auto.
Qed.

Lemma In_numeric_columns (df : DataFrame) (c : string) :
  In (c, DNumber) (columns df) -> In c (numeric_columns df).
Proof.
  intros I. unfold numeric_columns.
  apply (in_map fst _ (c, DNumber)). apply filter_In. auto.
Qed.

Lemma two_members {A} (l : list A) (a b : A) :
  In a l -> In b l -> a <> b -> Nat.ltb 1 (List.length l) = true.
Proof.
  destruct l as [|x [|y t]]; simpl; try tauto.
  intros [<- | []] [<- | []] N. now elim N.
Qed.

Section Numeric.
Context `{L : Library}.

Lemma numeric_step_number (df : DataFrame) (c c' : string) :
  In (c', DNumber) (columns df) \/ (c' = c /\ has_column df c = true) ->
  In (c', DNumber) (columns (numeric_step df c)).
Proof.
  unfold numeric_step. destruct (has_column df c) eqn:H.
  - unfold coerce_numeric, set_item. cbn [columns].
    destruct (string_dec c' c) as [-> | N]; [intros _; apply set_dtype_In|].
    intros [I | [E _]]; [now apply set_dtype_keeps | contradiction].
  - intros [I | [_ X]]; [exact I | discriminate].
Qed.

Lemma prep_numeric_number (df : DataFrame) (c : string) :
  In c numeric_cols -> has_column df c = true ->
  In (c, DNumber) (columns (prep_numeric df)).
Proof.
  rewrite prep_numeric_steps.
  intros [<- | [<- | [<- | [<- | []]]]] H;
    repeat (apply numeric_step_number;
            first [ right; split;
                    [reflexivity | rewrite ?numeric_step_has; exact H]
                  | left ]).
Qed.

(** Each of the four named columns that the upload has is numeric after
    data preparation, whatever its values. *)
Lemma normalize_number (raw : DataFrame) (c : string) :
  In c numeric_cols -> has_column raw c = true ->
  In c (numeric_columns (normalize raw)).
Proof.
  intros I Hc. apply In_numeric_columns. unfold normalize.
  apply prep_numeric_number; [exact I|].
  destruct (has_column raw "OrderDate") eqn:H; [|exact Hc].
  destruct (coerce_datetime_agree ["OrderDate"%string] raw "OrderDate")
    as (Nm & _); [simpl; auto | exact H |].
  now rewrite (has_column_names _ _ c Nm).
Qed.
End Numeric.

Lemma chart_or_warning_forall (P : ui -> bool) (present data : bool)
  (title : string) (fig : ui) (nodata : string) :
  P (StExpander title) = true -> P fig = true -> P (StWarning nodata) = true ->
  forallb P (chart_or_warning present data title fig nodata) = true.
Proof. intros E F W. destruct present, data; simpl; rewrite ?E, ?F, ?W; reflexivity. Qed.

(** X10. In a run that returns, the heat map is drawn exactly when the
    prepared table has at least two numeric columns; the filters and the
    values play no part.  Each of Sales, Quantity, Profit and UnitPrice
    that the upload has counts as numeric, whatever its values, so an
    upload with two of them always gets the heat map. *)
Theorem heatmap_drawn `{Library} (raw : DataFrame) (fs : FilterState)
  (env : Env) (w : list ui) (der : Derived) :
  body raw fs env = (w, Ok der) ->
  existsb is_heatmap w = Nat.ltb 1 (List.length (numeric_columns (normalize raw)))
  /\ (forall c, In c numeric_cols -> has_column raw c = true ->
                In c (numeric_columns (normalize raw)))
  /\ (forall c1 c2, In c1 numeric_cols -> In c2 numeric_cols -> c1 <> c2 ->
                    has_column raw c1 = true -> has_column raw c2 = true ->
                    existsb is_heatmap w = true).
Proof.
  intros B.
  assert (Hm : existsb is_heatmap w
               = Nat.ltb 1 (List.length (numeric_columns (normalize raw)))).
  { destruct (body_inv _ _ _ _ _ B) as (_ & _ & wd & -> & F & _).
    set (d := select (normalize raw) (passes (normalize raw) fs)).
    change (numeric_columns (normalize raw)) with (numeric_columns d).
    destruct (Nat.ltb 1 (List.length (numeric_columns d))) eqn:E.
    - apply existsb_exists. exists (StPyplot CorrelationHeatmap).
      split; [|reflexivity]. apply in_after_filters. unfold after_filters.
      apply in_or_app. right. apply in_or_app. right. apply in_or_app. left.
      rewrite chart_sections, E. right.
      do 4 (apply in_or_app; right). right. now left.
    - apply existsb_none.
      rewrite forallb_app, loaded_forall by reflexivity.
      assert (Ps : negb (is_heatmap (prep_status raw)) = true).
      { unfold prep_status. destruct (has_column raw "OrderDate");
          [destruct (forallb _ _)|]; reflexivity. }
      cbn [forallb]. rewrite Ps. cbn [negb is_heatmap andb].
      rewrite !forallb_app, select_events_forall by reflexivity.
      assert (Fd : forallb (fun e => negb (is_heatmap e)) wd = true).
      { apply forallb_Forall. eapply Forall_impl; [|exact F].
        intros e. now destruct e. }
      rewrite Fd. cbn [andb].
      unfold after_filters. rewrite kpis_eq, show_insights_eq.
      rewrite !forallb_app. cbn [fst]. rewrite chart_sections, E.
      cbn [forallb]. rewrite forallb_map_const by reflexivity.
      rewrite !forallb_app, !chart_or_warning_forall by reflexivity.
      unfold downloads. rewrite !bind_emit.
      destruct (generate_report env), (show_raw env); reflexivity. }
  split; [exact Hm|]. split; [intros c; apply normalize_number|].
  intros c1 c2 I1 I2 N H1 H2. rewrite Hm.
  apply (two_members _ c1 c2); auto using normalize_number.
Qed.

Lemma heatmap_witness :
  priced_run = (fst priced_run, Ok priced_derived)
  /\ existsb is_heatmap (fst priced_run)
     = Nat.ltb 1 (List.length (numeric_columns (@normalize sample_library priced)))
  /\ (forall c, In c numeric_cols -> has_column priced c = true ->
                In c (numeric_columns (@normalize sample_library priced)))
  /\ (forall c1 c2, In c1 numeric_cols -> In c2 numeric_cols -> c1 <> c2 ->
                    has_column priced c1 = true -> has_column priced c2 = true ->
                    existsb is_heatmap (fst priced_run) = true).
Proof.
  split; [vm_compute; reflexivity|].
  apply (@heatmap_drawn sample_library priced sample_filters sample_env
           (fst priced_run) priced_derived).
  vm_compute. reflexivity.
Defined.

(** ** The months of the trend (lines 118-130) *)



(** ** Grouped sales add up (lines 178-202) *)









(** ** The text report (lines 226-252) *)









